(** * The Janus Oracle C bridge: a shallow embedding of
      [protocol/c_shim/oracle_c_api.cc] (the build with the gRPC stubs)
      and the properties of its client and server halves.

    Conventions of the embedding.
    - [uint32_t], [uint16_t] and [int] values are carried as [Z]; the bridge
      never does arithmetic on them apart from the one cast in
      [janus_oracle_references_at], which is written out.
    - A [const char*] is a [cstr]: [None] is the null pointer, [Some s] a
      pointer to a buffer holding the bytes [s] followed by the terminator.
    - An out-parameter [T* p] is an [out T]: [None] when the caller passed a
      null pointer, [Some v] when it points to a cell that currently holds [v].
      A function returns the cells as they are when it returns.
    - A C++ exception is the [Throw] outcome of the [Raises] monad; the
      [try { ... } catch (...) { return k; }] of the source is [try_catch].
    - [malloc] and [new (std::nothrow)] are answered by an oracle carried in
      the [Heap], so a failed allocation is an input like any other. *)

From Stdlib Require Import ZArith List String Ascii Bool Lia.
From Stdlib Require Import DecimalString.
Import ListNotations.

Local Open Scope string_scope.
Local Open Scope Z_scope.

(** ** C values *)

Definition cstr := option string.

Definition out (A : Type) := option A.

(** [if (p) *p = v;] *)
Definition store {A : Type} (p : out A) (v : A) : out A :=
  match p with
  | None => None
  | Some _ => Some v
  end.

(** A [std::string] built from a C string: the bytes up to the first NUL. *)
Fixpoint std_string (s : string) : string :=
  match s with
  | EmptyString => EmptyString
  | String c rest =>
      if Ascii.eqb c zero then EmptyString else String c (std_string rest)
  end.

(** [p ? p : dflt], converted to a [std::string]. *)
Definition or_default (p : cstr) (dflt : string) : string :=
  match p with
  | Some s => std_string s
  | None => std_string dflt
  end.

(** [s.c_str()]: a non-null pointer to the string's own buffer. *)
Definition c_str (s : string) : cstr := Some s.

(** [std::to_string] on an unsigned port number. *)
Definition to_string (n : Z) : string := NilZero.string_of_int (Z.to_int n).

(** ** Exceptions *)

Inductive Raises (A : Type) : Type :=
| Return (a : A)
| Throw.
Arguments Return {A} a.
Arguments Throw {A}.

Definition bind {A B : Type} (m : Raises A) (k : A -> Raises B) : Raises B :=
  match m with
  | Return a => k a
  | Throw => Throw
  end.

Notation "x <- m ;; k" := (bind m (fun x => k))
  (at level 61, m at next level, right associativity).
Notation "' pat <- m ;; k" := (bind m (fun x => match x with pat => k end))
  (at level 61, pat pattern, m at next level, right associativity).

Definition try_catch {A : Type} (body : Raises A) (handler : A) : A :=
  match body with
  | Return a => a
  | Throw => handler
  end.

Definition raise_if (b : bool) : Raises unit :=
  if b then Throw else Return tt.

(** Where the code inside a [try] block may raise without the source saying
    so: while the request is built ([std::string] construction, [set_uri],
    [make_unique]: [std::bad_alloc]) and while the response is read back. *)
Record Faults : Type := {
  build_throws : bool;
  marshal_throws : bool
}.

Definition no_faults : Faults :=
  {| build_throws := false; marshal_throws := false |}.

(** ** The heap *)

(** [grants k] tells whether the [k]-th allocation request succeeds. *)
Record Heap : Type := {
  grants : nat -> bool;
  mallocs : nat
}.

Definition malloc (h : Heap) : bool * Heap :=
  (grants h (mallocs h), {| grants := grants h; mallocs := S (mallocs h) |}).

Definition plentiful : Heap := {| grants := fun _ => true; mallocs := 0 |}.

Definition exhausted : Heap := {| grants := fun _ => false; mallocs := 0 |}.

(** [s.empty()] *)
Definition empty (s : string) : bool :=
  match s with
  | EmptyString => true
  | String _ _ => false
  end.

Definition dup_cstr (s : string) (h : Heap) : cstr * Heap :=
  if empty s then (None, h)
  else
    let (granted, h1) := malloc h in
    if negb granted then (None, h1)
    else (Some s, h1).

(** [if (p) *p = dup_cstr(s);] *)
Definition store_dup (p : out cstr) (s : string) (h : Heap) : out cstr * Heap :=
  match p with
  | None => (None, h)
  | Some _ => let (q, h1) := dup_cstr s h in (Some q, h1)
  end.

(** ** Wire messages ([oracle.pb.h]) and call statuses ([grpc::StatusCode]) *)

Record DocUpdateRequest : Type := {
  du_uri : string;
  du_content : string
}.

Record DocUpdateResponse : Type := { du_ok : bool }.

Record PositionRequest : Type := {
  pos_uri : string;
  pos_line : Z;
  pos_character : Z
}.

Record HoverAtResponse : Type := { hv_markdown : string }.

Record DefinitionAtResponse : Type := {
  def_found : bool;
  def_uri : string;
  def_line : Z;
  def_character : Z
}.

Record ReferencesAtRequest : Type := {
  ref_uri : string;
  ref_line : Z;
  ref_character : Z;
  ref_include_declaration : bool
}.

Record Location : Type := {
  wl_uri : string;
  wl_line : Z;
  wl_character : Z
}.

Record ReferencesAtResponse : Type := { locations : list Location }.

(** Freshly constructed messages: every field at its protobuf default. *)
Definition fresh_DocUpdateResponse : DocUpdateResponse := {| du_ok := false |}.
Definition fresh_HoverAtResponse : HoverAtResponse := {| hv_markdown := "" |}.
Definition fresh_DefinitionAtResponse : DefinitionAtResponse :=
  {| def_found := false; def_uri := ""; def_line := 0; def_character := 0 |}.
Definition fresh_ReferencesAtResponse : ReferencesAtResponse :=
  {| locations := [] |}.

Inductive StatusCode : Type :=
| OK | CANCELLED | UNKNOWN | INVALID_ARGUMENT | DEADLINE_EXCEEDED | NOT_FOUND
| ALREADY_EXISTS | PERMISSION_DENIED | RESOURCE_EXHAUSTED
| FAILED_PRECONDITION | ABORTED | OUT_OF_RANGE | UNIMPLEMENTED | INTERNAL
| UNAVAILABLE | DATA_LOSS | UNAUTHENTICATED.

(** [status.ok()] *)
Definition ok (st : StatusCode) : bool :=
  match st with
  | OK => true
  | _ => false
  end.

(** [status.error_code() == grpc::StatusCode::DEADLINE_EXCEEDED] *)
Definition deadline_exceeded (st : StatusCode) : bool :=
  match st with
  | DEADLINE_EXCEEDED => true
  | _ => false
  end.

(** The result every call operation gives for a failed remote call. *)
Definition failure_code (st : StatusCode) : Z :=
  if deadline_exceeded st then 5 else 2.

(** ** The client handle *)

(** The generated stub, as the bridge sees it: each method is given the time
    the call is allowed (the deadline set on the [ClientContext], in
    milliseconds from now) and the request, and either raises or comes back
    with a status and the response message. *)
Record Stub : Type := {
  stub_DocUpdate :
    Z -> DocUpdateRequest -> Raises (StatusCode * DocUpdateResponse);
  stub_HoverAt :
    Z -> PositionRequest -> Raises (StatusCode * HoverAtResponse);
  stub_DefinitionAt :
    Z -> PositionRequest -> Raises (StatusCode * DefinitionAtResponse);
  stub_ReferencesAt :
    Z -> ReferencesAtRequest -> Raises (StatusCode * ReferencesAtResponse)
}.

Record Channel : Type := { target : string }.

(** [grpc::CreateChannel(target, grpc::InsecureChannelCredentials())] *)
Definition CreateChannel (tgt : string) : Channel := {| target := tgt |}.

(** What the gRPC library answers on the client side. *)
Record Transport : Type := {
  NewStub : Channel -> Stub;
  WaitForConnected : Channel -> Z -> bool
}.

Record JanusOracleClient : Type := {
  channel : Channel;
  stub : option Stub;
  connect_timeout_ms : Z;
  rpc_timeout_ms : Z
}.

Definition janus_oracle_client_connect
    (net : Transport) (fl : Faults) (host : cstr) (port : Z) (h : Heap)
  : option JanusOracleClient * Heap :=
  try_catch
    (_ <- raise_if (build_throws fl) ;;
     let tgt := or_default host "127.0.0.1" ++ ":" ++ to_string port in
     let chan := CreateChannel tgt in
     let stb := NewStub net chan in
     let (granted, h1) := malloc h in
     if negb granted then Return (None, h1)
     else
       let c := {| channel := chan; stub := Some stb;
                   connect_timeout_ms := 1500; rpc_timeout_ms := 1000 |} in
       if negb (WaitForConnected net chan (connect_timeout_ms c))
       then Return (None, h1)
       else Return (Some c, h1))
    (None, h).

Definition janus_oracle_client_set_timeouts
    (client : option JanusOracleClient) (connect_ms rpc_ms : Z)
  : Z * option JanusOracleClient :=
  match client with
  | None => (1, None)
  | Some c =>
      let c1 :=
        if negb (connect_ms =? 0)%Z
        then {| channel := channel c; stub := stub c;
                connect_timeout_ms := connect_ms;
                rpc_timeout_ms := rpc_timeout_ms c |}
        else c in
      let c2 :=
        if negb (rpc_ms =? 0)%Z
        then {| channel := channel c1; stub := stub c1;
                connect_timeout_ms := connect_timeout_ms c1;
                rpc_timeout_ms := rpc_ms |}
        else c1 in
      (0, Some c2)
  end.

(** [if (!client || !client->stub) return 1;]: the stub to call, if any. *)
Definition usable (client : option JanusOracleClient) : option (JanusOracleClient * Stub) :=
  match client with
  | None => None
  | Some c =>
      match stub c with
      | None => None
      | Some st => Some (c, st)
      end
  end.

Record DocUpdateResult : Type := {
  dur_rc : Z;
  dur_ok_out : out bool
}.

Definition janus_oracle_doc_update
    (fl : Faults) (client : option JanusOracleClient)
    (uri content : cstr) (ok_out : out bool)
  : DocUpdateResult :=
  match usable client with
  | None => {| dur_rc := 1; dur_ok_out := ok_out |}
  | Some (c, st) =>
      try_catch
        (_ <- raise_if (build_throws fl) ;;
         let req := {| du_uri := or_default uri "";
                       du_content := or_default content "" |} in
         '(status, resp) <- stub_DocUpdate st (rpc_timeout_ms c) req ;;
         if negb (ok status)
         then Return {| dur_rc := failure_code status; dur_ok_out := ok_out |}
         else
           _ <- raise_if (marshal_throws fl) ;;
           Return {| dur_rc := 0; dur_ok_out := store ok_out (du_ok resp) |})
        {| dur_rc := 3; dur_ok_out := ok_out |}
  end.

Record HoverAtResult : Type := {
  hvr_rc : Z;
  hvr_markdown_out : out cstr;
  hvr_heap : Heap
}.

Definition janus_oracle_hover_at
    (fl : Faults) (client : option JanusOracleClient)
    (uri : cstr) (line character : Z) (markdown_out : out cstr) (h : Heap)
  : HoverAtResult :=
  let markdown_out := store markdown_out None in
  match usable client with
  | None => {| hvr_rc := 1; hvr_markdown_out := markdown_out; hvr_heap := h |}
  | Some (c, st) =>
      try_catch
        (_ <- raise_if (build_throws fl) ;;
         let req := {| pos_uri := or_default uri "";
                       pos_line := line; pos_character := character |} in
         '(status, resp) <- stub_HoverAt st (rpc_timeout_ms c) req ;;
         if negb (ok status)
         then Return {| hvr_rc := failure_code status;
                        hvr_markdown_out := markdown_out; hvr_heap := h |}
         else
           _ <- raise_if (marshal_throws fl) ;;
           let (md, h1) := store_dup markdown_out (hv_markdown resp) h in
           Return {| hvr_rc := 0; hvr_markdown_out := md; hvr_heap := h1 |})
        {| hvr_rc := 3; hvr_markdown_out := markdown_out; hvr_heap := h |}
  end.

Record DefinitionAtResult : Type := {
  dfr_rc : Z;
  dfr_found_out : out bool;
  dfr_uri_out : out cstr;
  dfr_def_line_out : out Z;
  dfr_def_character_out : out Z;
  dfr_heap : Heap
}.

Definition janus_oracle_definition_at
    (fl : Faults) (client : option JanusOracleClient)
    (uri : cstr) (line character : Z)
    (found_out : out bool) (uri_out : out cstr)
    (def_line_out def_character_out : out Z) (h : Heap)
  : DefinitionAtResult :=
  let uri_out := store uri_out None in
  let found_out := store found_out false in
  let unchanged rc :=
    {| dfr_rc := rc; dfr_found_out := found_out; dfr_uri_out := uri_out;
       dfr_def_line_out := def_line_out;
       dfr_def_character_out := def_character_out; dfr_heap := h |} in
  match usable client with
  | None => unchanged 1
  | Some (c, st) =>
      try_catch
        (_ <- raise_if (build_throws fl) ;;
         let req := {| pos_uri := or_default uri "";
                       pos_line := line; pos_character := character |} in
         '(status, resp) <- stub_DefinitionAt st (rpc_timeout_ms c) req ;;
         if negb (ok status)
         then Return (unchanged (failure_code status))
         else
           _ <- raise_if (marshal_throws fl) ;;
           let found_out := store found_out (def_found resp) in
           if def_found resp
           then
             let (u, h1) := store_dup uri_out (def_uri resp) h in
             Return {| dfr_rc := 0; dfr_found_out := found_out;
                       dfr_uri_out := u;
                       dfr_def_line_out := store def_line_out (def_line resp);
                       dfr_def_character_out :=
                         store def_character_out (def_character resp);
                       dfr_heap := h1 |}
           else
             Return {| dfr_rc := 0; dfr_found_out := found_out;
                       dfr_uri_out := uri_out;
                       dfr_def_line_out := def_line_out;
                       dfr_def_character_out := def_character_out;
                       dfr_heap := h |})
        (unchanged 3)
  end.

Record JanusOracleLocation : Type := {
  uri : cstr;
  line : Z;
  character : Z
}.

(** The body of the copy loop, run over the locations it visits. *)
Fixpoint copy_locations (locs : list Location) (h : Heap)
  : list JanusOracleLocation * Heap :=
  match locs with
  | [] => ([], h)
  | loc :: rest =>
      let (u, h1) := dup_cstr (wl_uri loc) h in
      let (arr, h2) := copy_locations rest h1 in
      ({| uri := u; line := wl_line loc; character := wl_character loc |}
         :: arr, h2)
  end.

(** [resp.locations_size()], an [int]. *)
Definition locations_size (resp : ReferencesAtResponse) : Z :=
  Z.of_nat (List.length (locations resp)).

(** [static_cast<uint32_t>] *)
Definition to_uint32 (n : Z) : Z := n mod 2 ^ 32.

Record ReferencesAtResult : Type := {
  rfr_rc : Z;
  rfr_locations_out : out (option (list JanusOracleLocation));
  rfr_count_out : out Z;
  rfr_heap : Heap
}.

Definition janus_oracle_references_at
    (fl : Faults) (client : option JanusOracleClient)
    (uri : cstr) (line character : Z) (include_declaration : bool)
    (locations_out : out (option (list JanusOracleLocation)))
    (count_out : out Z) (h : Heap)
  : ReferencesAtResult :=
  let locations_out := store locations_out None in
  let count_out := store count_out 0 in
  let unchanged rc h' :=
    {| rfr_rc := rc; rfr_locations_out := locations_out;
       rfr_count_out := count_out; rfr_heap := h' |} in
  match usable client with
  | None => unchanged 1 h
  | Some (c, st) =>
      try_catch
        (_ <- raise_if (build_throws fl) ;;
         let req := {| ref_uri := or_default uri "";
                       ref_line := line; ref_character := character;
                       ref_include_declaration := include_declaration |} in
         '(status, resp) <- stub_ReferencesAt st (rpc_timeout_ms c) req ;;
         if negb (ok status)
         then Return (unchanged (failure_code status) h)
         else
           _ <- raise_if (marshal_throws fl) ;;
           let n := to_uint32 (locations_size resp) in
           if (n =? 0)%Z then Return (unchanged 0 h)
           else
             let (granted, h1) := malloc h in
             if negb granted then Return (unchanged 3 h1)
             else
               let (arr, h2) :=
                 copy_locations (firstn (Z.to_nat n) (locations resp)) h1 in
               Return {| rfr_rc := 0;
                         rfr_locations_out := store locations_out (Some arr);
                         rfr_count_out := store count_out n;
                         rfr_heap := h2 |})
        (unchanged 4 h)
  end.

(** ** The server handle *)

(** The out-cells of the definition handler: [found], [def_uri], [line] and
    [ch] of [ServiceImpl::DefinitionAt]. *)
Record DefinitionCells : Type := {
  c_found : bool;
  c_def_uri : cstr;
  c_line : Z;
  c_ch : Z
}.

(** One call of the location sink: [sink(sink_user, uri, line, character)]. *)
Record SinkCall : Type := {
  sk_uri : cstr;
  sk_line : Z;
  sk_character : Z
}.

Inductive OpKind : Type :=
| OpDocUpdate | OpHoverAt | OpDefinitionAt | OpReferencesAt.

(** The listening endpoint built by [ServerBuilder::BuildAndStart]. *)
Record GrpcServer : Type := { address : string }.

(** What the server-side transport was asked to do. *)
Inductive NetEvent : Type :=
| EvListen (addr : string)
| EvShutdown (addr : string).

Section Server.

(** The state the handlers reach through their [user] pointer. *)
Variable W : Type.

(** A handler is given its inputs, the current contents of its out-cells,
    the [user] pointer and the state behind it; it gives back its return
    code, the contents of the out-cells when it returns and the new state.
    The sink returns nothing to the references handler, so what that handler
    does with it is the sequence of calls it makes, in order. *)
Definition JanusDocUpdateFn : Type :=
  cstr -> cstr -> bool -> Z -> W -> Z * bool * W.
Definition JanusHoverAtFn : Type :=
  cstr -> Z -> Z -> cstr -> Z -> W -> Z * cstr * W.
Definition JanusDefinitionAtFn : Type :=
  cstr -> Z -> Z -> DefinitionCells -> Z -> W -> Z * DefinitionCells * W.
Definition JanusReferencesAtFn : Type :=
  cstr -> Z -> Z -> bool -> Z -> W -> Z * list SinkCall * W.

Record JanusOracleServer : Type := {
  host : string;
  port : Z;
  server : option GrpcServer;
  on_doc_update : option JanusDocUpdateFn;
  on_hover_at : option JanusHoverAtFn;
  on_definition_at : option JanusDefinitionAtFn;
  on_references_at : option JanusReferencesAtFn;
  user : Z
}.

(** What one dispatched request leaves behind: the status handed to gRPC,
    the response message, the handlers' state, and which handlers ran. *)
Record Served (R : Type) : Type := {
  status : StatusCode;
  response : R;
  world : W;
  invoked : list OpKind
}.
Arguments status {R} _.
Arguments response {R} _.
Arguments world {R} _.
Arguments invoked {R} _.

(** The methods of [ServiceImpl]; [owner] is the server the service belongs to. *)

Definition ServiceImpl_DocUpdate (owner : JanusOracleServer) (req : DocUpdateRequest)
    (resp : DocUpdateResponse) (w : W) : Served DocUpdateResponse :=
  match on_doc_update owner with
  | None => {| status := UNIMPLEMENTED; response := resp;
               world := w; invoked := [] |}
  | Some handler =>
      let '(rc, ok_cell, w1) :=
        handler (c_str (du_uri req)) (c_str (du_content req))
                false (user owner) w in
      if negb (rc =? 0)%Z
      then {| status := INTERNAL; response := resp;
              world := w1; invoked := [OpDocUpdate] |}
      else {| status := OK; response := {| du_ok := ok_cell |};
              world := w1; invoked := [OpDocUpdate] |}
  end.

Definition ServiceImpl_HoverAt (owner : JanusOracleServer) (req : PositionRequest)
    (resp : HoverAtResponse) (w : W) : Served HoverAtResponse :=
  match on_hover_at owner with
  | None => {| status := UNIMPLEMENTED; response := resp;
               world := w; invoked := [] |}
  | Some handler =>
      let '(rc, md, w1) :=
        handler (c_str (pos_uri req)) (pos_line req) (pos_character req)
                None (user owner) w in
      if negb (rc =? 0)%Z
      then {| status := INTERNAL; response := resp;
              world := w1; invoked := [OpHoverAt] |}
      else {| status := OK;
              response := match md with
                          | Some s => {| hv_markdown := std_string s |}
                          | None => resp
                          end;
              world := w1; invoked := [OpHoverAt] |}
  end.

Definition ServiceImpl_DefinitionAt (owner : JanusOracleServer) (req : PositionRequest)
    (resp : DefinitionAtResponse) (w : W) : Served DefinitionAtResponse :=
  match on_definition_at owner with
  | None => {| status := UNIMPLEMENTED; response := resp;
               world := w; invoked := [] |}
  | Some handler =>
      let '(rc, cells, w1) :=
        handler (c_str (pos_uri req)) (pos_line req) (pos_character req)
                {| c_found := false; c_def_uri := None;
                   c_line := 0; c_ch := 0 |}
                (user owner) w in
      if negb (rc =? 0)%Z
      then {| status := INTERNAL; response := resp;
              world := w1; invoked := [OpDefinitionAt] |}
      else
        let resp1 := {| def_found := c_found cells; def_uri := def_uri resp;
                        def_line := def_line resp;
                        def_character := def_character resp |} in
        {| status := OK;
           response :=
             if c_found cells
             then {| def_found := def_found resp1;
                     def_uri := match c_def_uri cells with
                                | Some s => std_string s
                                | None => def_uri resp1
                                end;
                     def_line := c_line cells;
                     def_character := c_ch cells |}
             else resp1;
           world := w1; invoked := [OpDefinitionAt] |}
  end.

Definition sink_to_response (resp : ReferencesAtResponse) (call : SinkCall)
  : ReferencesAtResponse :=
  let loc := {| wl_uri := match sk_uri call with
                          | Some s => std_string s
                          | None => ""
                          end;
                wl_line := sk_line call;
                wl_character := sk_character call |} in
  {| locations := (locations resp ++ [loc])%list |}.

Definition ServiceImpl_ReferencesAt (owner : JanusOracleServer) (req : ReferencesAtRequest)
    (resp : ReferencesAtResponse) (w : W) : Served ReferencesAtResponse :=
  match on_references_at owner with
  | None => {| status := UNIMPLEMENTED; response := resp;
               world := w; invoked := [] |}
  | Some handler =>
      let '(rc, calls, w1) :=
        handler (c_str (ref_uri req)) (ref_line req) (ref_character req)
                (ref_include_declaration req) (user owner) w in
      let resp1 := fold_left sink_to_response calls resp in
      if negb (rc =? 0)%Z
      then {| status := INTERNAL; response := resp1;
              world := w1; invoked := [OpReferencesAt] |}
      else {| status := OK; response := resp1;
              world := w1; invoked := [OpReferencesAt] |}
  end.

Definition janus_oracle_server_create
    (fl : Faults) (host_arg : cstr) (port_arg : Z) (h : Heap)
  : option JanusOracleServer * Heap :=
  let (granted, h1) := malloc h in
  if negb granted then (None, h1)
  else
    try_catch
      (_ <- raise_if (build_throws fl) ;;
       Return (Some {| host := or_default host_arg "127.0.0.1";
                       port := port_arg;
                       server := None;
                       on_doc_update := None; on_hover_at := None;
                       on_definition_at := None; on_references_at := None;
                       user := 0 |}, h1))
      (None, h1).

Definition janus_oracle_server_set_handlers
    (srv : option JanusOracleServer)
    (doc_update_fn : option JanusDocUpdateFn)
    (hover_at_fn : option JanusHoverAtFn)
    (definition_at_fn : option JanusDefinitionAtFn)
    (references_at_fn : option JanusReferencesAtFn)
    (user_arg : Z)
  : Z * option JanusOracleServer :=
  match srv with
  | None => (1, None)
  | Some s =>
      (0, Some {| host := host s; port := port s; server := server s;
                  on_doc_update := doc_update_fn;
                  on_hover_at := hover_at_fn;
                  on_definition_at := definition_at_fn;
                  on_references_at := references_at_fn;
                  user := user_arg |})
  end.

(** [server->server = p;] *)
Definition set_server (s : JanusOracleServer) (p : option GrpcServer)
  : JanusOracleServer :=
  {| host := host s; port := port s; server := p;
     on_doc_update := on_doc_update s; on_hover_at := on_hover_at s;
     on_definition_at := on_definition_at s;
     on_references_at := on_references_at s; user := user s |}.

(** [BuildAndStart] answers with an endpoint or with null. The thread that
    waits on the endpoint is detached and takes no part in what follows, but
    constructing it may raise ([thread_throws]); that happens inside the
    [try], after the endpoint has been stored in the handle, so the catch
    then returns 3 with the endpoint open and held by the handle. *)
Definition janus_oracle_server_start
    (BuildAndStart : string -> option GrpcServer) (fl : Faults)
    (thread_throws : bool)
    (srv : option JanusOracleServer) (log : list NetEvent)
  : Z * option JanusOracleServer * list NetEvent :=
  match srv with
  | None => (1, None, log)
  | Some s =>
      try_catch
        (_ <- raise_if (build_throws fl) ;;
         let addr := host s ++ ":" ++ to_string (port s) in
         match BuildAndStart addr with
         | None => Return (2, Some (set_server s None), log)
         | Some g =>
             let s1 := set_server s (Some g) in
             let log1 := (log ++ [EvListen (address g)])%list in
             if thread_throws then Return (3, Some s1, log1)
             else Return (0, Some s1, log1)
         end)
        (3, Some s, log)
  end.

Definition janus_oracle_server_stop
    (srv : option JanusOracleServer) (log : list NetEvent)
  : Z * option JanusOracleServer * list NetEvent :=
  match srv with
  | None => (1, None, log)
  | Some s =>
      match server s with
      | Some g =>
          (0, Some (set_server s None), (log ++ [EvShutdown (address g)])%list)
      | None => (0, Some s, log)
      end
  end.

(** The handle is gone afterwards; what remains is the transport's log. *)
Definition janus_oracle_server_destroy
    (srv : option JanusOracleServer) (log : list NetEvent) : list NetEvent :=
  match srv with
  | None => log
  | Some _ => snd (janus_oracle_server_stop srv log)
  end.

End Server.

Arguments host {W} _.
Arguments port {W} _.
Arguments server {W} _.
Arguments on_doc_update {W} _.
Arguments on_hover_at {W} _.
Arguments on_definition_at {W} _.
Arguments on_references_at {W} _.
Arguments user {W} _.
Arguments status {W R} _.
Arguments response {W R} _.
Arguments world {W R} _.
Arguments invoked {W R} _.
Arguments ServiceImpl_DocUpdate {W} owner req resp w.
Arguments ServiceImpl_HoverAt {W} owner req resp w.
Arguments ServiceImpl_DefinitionAt {W} owner req resp w.
Arguments ServiceImpl_ReferencesAt {W} owner req resp w.
Arguments janus_oracle_server_create {W} fl host_arg port_arg h.
Arguments janus_oracle_server_set_handlers {W} srv _ _ _ _ user_arg.
Arguments set_server {W} s p.
Arguments janus_oracle_server_start {W} BuildAndStart fl thread_throws srv log.
Arguments janus_oracle_server_stop {W} srv log.
Arguments janus_oracle_server_destroy {W} srv log.

(** ** Client and server joined

    A transport that carries each request straight to the service of
    [owner], whose handlers see the state [w], and that answers after
    [latency] milliseconds: a call allowed less time than that ends with
    [DEADLINE_EXCEEDED], as gRPC ends a call whose deadline has passed. *)
Definition loopback {W : Type} (owner : JanusOracleServer W) (w : W)
    (latency : Z) : Stub :=
  {| stub_DocUpdate := fun allowed req =>
       if allowed <? latency
       then Return (DEADLINE_EXCEEDED, fresh_DocUpdateResponse)
       else let r := ServiceImpl_DocUpdate owner req fresh_DocUpdateResponse w in
            Return (status r, response r);
     stub_HoverAt := fun allowed req =>
       if allowed <? latency
       then Return (DEADLINE_EXCEEDED, fresh_HoverAtResponse)
       else let r := ServiceImpl_HoverAt owner req fresh_HoverAtResponse w in
            Return (status r, response r);
     stub_DefinitionAt := fun allowed req =>
       if allowed <? latency
       then Return (DEADLINE_EXCEEDED, fresh_DefinitionAtResponse)
       else let r := ServiceImpl_DefinitionAt owner req
                       fresh_DefinitionAtResponse w in
            Return (status r, response r);
     stub_ReferencesAt := fun allowed req =>
       if allowed <? latency
       then Return (DEADLINE_EXCEEDED, fresh_ReferencesAtResponse)
       else let r := ServiceImpl_ReferencesAt owner req
                       fresh_ReferencesAtResponse w in
            Return (status r, response r) |}.

(** A stub whose every call ends the same way. *)
Definition canned_stub
    (du : Raises (StatusCode * DocUpdateResponse))
    (hv : Raises (StatusCode * HoverAtResponse))
    (df : Raises (StatusCode * DefinitionAtResponse))
    (rf : Raises (StatusCode * ReferencesAtResponse)) : Stub :=
  {| stub_DocUpdate := fun _ _ => du;
     stub_HoverAt := fun _ _ => hv;
     stub_DefinitionAt := fun _ _ => df;
     stub_ReferencesAt := fun _ _ => rf |}.

(** A handle as [janus_oracle_client_connect] leaves it. *)
Definition connected (st : Stub) : JanusOracleClient :=
  {| channel := CreateChannel "127.0.0.1:50051"; stub := Some st;
     connect_timeout_ms := 1500; rpc_timeout_ms := 1000 |}.

(** The requests the call operations build. *)
Definition position_request (uri_arg : cstr) (line_arg character_arg : Z)
  : PositionRequest :=
  {| pos_uri := or_default uri_arg "";
     pos_line := line_arg; pos_character := character_arg |}.

Definition references_request (uri_arg : cstr) (line_arg character_arg : Z)
    (include_declaration : bool) : ReferencesAtRequest :=
  {| ref_uri := or_default uri_arg "";
     ref_line := line_arg; ref_character := character_arg;
     ref_include_declaration := include_declaration |}.

(** [INT_MAX]: [locations_size] is an [int]. *)
Definition INT_MAX : Z := 2 ^ 31 - 1.

(** ** Sample handlers, servers and heaps *)

(** A hover handler with nothing to show: it leaves its out-cell alone. *)
Definition hover_nothing : JanusHoverAtFn unit :=
  fun _ _ _ md _ w => (0, md, w).

(** A definition handler that finds nothing. *)
Definition definition_nowhere : JanusDefinitionAtFn unit :=
  fun _ _ _ cells _ w => (0, cells, w).

(** A references handler that streams two locations and succeeds. *)
Definition two_references : JanusReferencesAtFn unit :=
  fun uri_arg _ _ _ _ w =>
    (0, [ {| sk_uri := uri_arg; sk_line := 1; sk_character := 2 |};
          {| sk_uri := Some "file:///b.jan"; sk_line := 5; sk_character := 0 |} ],
     w).

(** A references handler that streams one location and then fails. *)
Definition one_reference_then_error : JanusReferencesAtFn unit :=
  fun uri_arg _ _ _ _ w =>
    (1, [ {| sk_uri := uri_arg; sk_line := 1; sk_character := 2 |} ], w).

Definition doc_update_accepts : JanusDocUpdateFn unit :=
  fun _ _ _ _ w => (0, true, w).

Definition sample_server : JanusOracleServer unit :=
  {| host := "127.0.0.1"; port := 50051; server := None;
     on_doc_update := Some doc_update_accepts;
     on_hover_at := Some hover_nothing;
     on_definition_at := Some definition_nowhere;
     on_references_at := Some two_references;
     user := 0 |}.

(** A client of [sample_server] over a transport that answers at once. *)
Definition sample_client : JanusOracleClient :=
  connected (loopback sample_server tt 0).

(** A heap that grants the first request and refuses every later one. *)
Definition one_block : Heap :=
  {| grants := fun k => Nat.eqb k 0; mallocs := 0 |}.

(** Handlers that have something to say. *)
Definition hover_text : JanusHoverAtFn unit :=
  fun _ _ _ _ _ w => (0, Some "fn main()", w).

Definition definition_found : JanusDefinitionAtFn unit :=
  fun _ _ _ _ _ w =>
    (0, {| c_found := true; c_def_uri := Some "file:///d.jan";
           c_line := 10; c_ch := 4 |}, w).

Definition rich_server : JanusOracleServer unit :=
  {| host := "127.0.0.1"; port := 50051; server := None;
     on_doc_update := Some doc_update_accepts;
     on_hover_at := Some hover_text;
     on_definition_at := Some definition_found;
     on_references_at := Some two_references;
     user := 0 |}.

Definition rich_client : JanusOracleClient :=
  connected (loopback rich_server tt 0).

(** A client whose every call raises inside the stub. *)
Definition raising_client : JanusOracleClient :=
  connected (canned_stub Throw Throw Throw Throw).

Definition build_fault : Faults :=
  {| build_throws := true; marshal_throws := false |}.

(** A peer whose channel becomes ready [delay] milliseconds after it was
    created, and whose calls go through [st]. *)
Definition peer_ready_after (delay : Z) (st : Stub) : Transport :=
  {| NewStub := fun _ => st;
     WaitForConnected := fun _ allowed => delay <=? allowed |}.

(** A server as [janus_oracle_server_create] leaves it: no handler set. *)
Definition bare_server : JanusOracleServer unit :=
  {| host := "127.0.0.1"; port := 50051; server := None;
     on_doc_update := None; on_hover_at := None;
     on_definition_at := None; on_references_at := None;
     user := 0 |}.

Definition bare_client : JanusOracleClient :=
  connected (loopback bare_server tt 0).

(** A client of [sample_server] over a transport that takes five seconds. *)
Definition slow_client : JanusOracleClient :=
  connected (loopback sample_server tt 5000).

(** A server whose references handler fails after streaming. *)
Definition failing_server : JanusOracleServer unit :=
  {| host := "127.0.0.1"; port := 50051; server := None;
     on_doc_update := None; on_hover_at := None;
     on_definition_at := None;
     on_references_at := Some one_reference_then_error;
     user := 0 |}.

(** ** Vocabulary of the statements *)

(** The wire location the sink appends for one of the handler's calls. *)
Definition streamed (call : SinkCall) : Location :=
  {| wl_uri := or_default (sk_uri call) "";
     wl_line := sk_line call;
     wl_character := sk_character call |}.

(** The array entry made of a wire location when its uri can be allocated. *)
Definition copy_of (loc : Location) : JanusOracleLocation :=
  {| uri := if empty (wl_uri loc) then None else Some (wl_uri loc);
     line := wl_line loc;
     character := wl_character loc |}.

(** The array entry made of a wire location whose uri comes out null. *)
Definition without_uri (loc : Location) : JanusOracleLocation :=
  {| uri := None; line := wl_line loc; character := wl_character loc |}.

(** [entry] is the client's copy of the location streamed by [call]: same
    line and character, and the same uri unless it came out null. *)
Definition copies (entry : JanusOracleLocation) (call : SinkCall) : Prop :=
  line entry = sk_line call
  /\ character entry = sk_character call
  /\ (uri entry = None \/ uri entry = Some (wl_uri (streamed call))).


(** ** The build without the gRPC stubs

    The second half of [oracle_c_api.cc]: the same entry points, compiled
    when the generated stubs are not available. The handles are never
    looked at. *)
Module Fallback.

Record JanusOracleClient : Type := { client_unused : Z }.

Record JanusOracleServer : Type := { server_unused : Z }.

Definition janus_oracle_client_connect (host_arg : cstr) (port_arg : Z)
  : option JanusOracleClient := None.

Definition janus_oracle_doc_update
    (client : option JanusOracleClient) (uri_arg content_arg : cstr)
    (ok_out : out bool) : DocUpdateResult :=
  {| dur_rc := 1; dur_ok_out := store ok_out false |}.

Definition janus_oracle_hover_at
    (client : option JanusOracleClient) (uri_arg : cstr)
    (line_arg character_arg : Z) (markdown_out : out cstr) (h : Heap)
  : HoverAtResult :=
  {| hvr_rc := 1; hvr_markdown_out := store markdown_out None; hvr_heap := h |}.

Definition janus_oracle_definition_at
    (client : option JanusOracleClient) (uri_arg : cstr)
    (line_arg character_arg : Z)
    (found_out : out bool) (uri_out : out cstr)
    (def_line_out def_character_out : out Z) (h : Heap)
  : DefinitionAtResult :=
  {| dfr_rc := 1;
     dfr_found_out := store found_out false;
     dfr_uri_out := store uri_out None;
     dfr_def_line_out := store def_line_out 0;
     dfr_def_character_out := store def_character_out 0;
     dfr_heap := h |}.

Definition janus_oracle_references_at
    (client : option JanusOracleClient) (uri_arg : cstr)
    (line_arg character_arg : Z) (include_declaration : bool)
    (locations_out : out (option (list JanusOracleLocation)))
    (count_out : out Z) (h : Heap)
  : ReferencesAtResult :=
  {| rfr_rc := 1; rfr_locations_out := store locations_out None;
     rfr_count_out := store count_out 0; rfr_heap := h |}.

Definition janus_oracle_server_create (host_arg : cstr) (port_arg : Z)
  : option JanusOracleServer := None.

Definition janus_oracle_server_set_handlers
    (srv : option JanusOracleServer) : Z := 1.

Definition janus_oracle_server_start (srv : option JanusOracleServer) : Z := 1.

Definition janus_oracle_server_stop (srv : option JanusOracleServer) : Z := 0.

End Fallback.

(** ** The minimal runtime ([src/janus_rt.c]) and the generated sample
       ([attic/tests_legacy/simple_control_test.c]) *)

(** [strlen]: the number of bytes before the first NUL. *)
Definition strlen (s : string) : Z := Z.of_nat (String.length (std_string s)).

(** The cast [(int)] of a [size_t]. *)
Definition to_int (n : Z) : Z := (n + 2 ^ 31) mod 2 ^ 32 - 2 ^ 31.

Definition janus_string_len (str : cstr) : Z :=
  match str with
  | None => 0
  | Some s => to_int (strlen s)
  end.

(** The bytes [strcpy (result, s1); strcat (result, s2);] leave in [result].
    The source does not check what [malloc] returned: when the block is
    refused the copy goes through the null pointer, and the function has no
    result ([None]). *)
Definition janus_string_concat (s1 s2 : cstr) (h : Heap)
  : option string * Heap :=
  let s1 := match s1 with Some s => s | None => "" end in
  let s2 := match s2 with Some s => s | None => "" end in
  let (granted, h1) := malloc h in
  if negb granted then (None, h1)
  else (Some (std_string s1 ++ std_string s2)%string, h1).

(** [strncmp] on the bytes before the terminators: the difference of the
    first two bytes that differ among the first [n], as unsigned bytes, and
    0 when there is none. *)
Fixpoint strncmp_bytes (a b : string) (n : nat) {struct n} : Z :=
  match n with
  | O => 0
  | S n' =>
      match a, b with
      | EmptyString, EmptyString => 0
      | EmptyString, String cb _ => - Z.of_nat (nat_of_ascii cb)
      | String ca _, EmptyString => Z.of_nat (nat_of_ascii ca)
      | String ca ra, String cb rb =>
          if Ascii.eqb ca cb then strncmp_bytes ra rb n'
          else Z.of_nat (nat_of_ascii ca) - Z.of_nat (nat_of_ascii cb)
      end
  end.

Definition strncmp (a b : string) (n : Z) : Z :=
  strncmp_bytes (std_string a) (std_string b) (Z.to_nat n).

(** The sample's [janus_string_length] and [janus_starts_with]; neither
    checks its pointers, so they are given strings. *)
Definition janus_string_length (str : string) : Z := to_int (strlen str).

Definition janus_starts_with (text prefix : string) : Z :=
  let prefix_len := strlen prefix in
  let text_len := strlen text in
  if prefix_len >? text_len then 0
  else if strncmp text prefix prefix_len =? 0 then 1 else 0.

(** The locations of a response whose uri is not empty. *)
Definition with_uri (locs : list Location) : list Location :=
  filter (fun loc => negb (empty (wl_uri loc))) locs.

(** A transport that delivers what the service of [owner] answers: the
    status the adapter returned and the response it filled. *)
Definition delivers {W : Type} {Req Resp : Type}
    (remote : Z -> Req -> Raises (StatusCode * Resp))
    (serve : Req -> Resp -> W -> Served W Resp)
    (allowed : Z) (req : Req) (fresh : Resp) (w : W) : Prop :=
  remote allowed req =
    Return (status (serve req fresh w), response (serve req fresh w)).

(** ** Auxiliary facts *)

Lemma usable_connected (c : JanusOracleClient) (st : Stub) :
  stub c = Some st -> usable (Some c) = Some (c, st).
Proof.
  intros Hst. unfold usable. rewrite Hst. reflexivity.
Qed.

Lemma to_uint32_locations_size (resp : ReferencesAtResponse) :
  locations_size resp <= INT_MAX ->
  to_uint32 (locations_size resp) = locations_size resp.
Proof.
  unfold to_uint32, locations_size, INT_MAX. intros Hle.
  apply Z.mod_small. lia.
Qed.

Lemma sink_appends_in_call_order (calls : list SinkCall)
    (resp : ReferencesAtResponse) :
  fold_left sink_to_response calls resp =
    {| locations := (locations resp ++ map streamed calls)%list |}.
Proof.
  revert resp. induction calls as [|call rest IH]; intros resp; simpl.
  - rewrite app_nil_r. now destruct resp.
  - rewrite IH. unfold sink_to_response at 1. simpl.
    rewrite <- app_assoc. simpl.
    unfold streamed, or_default. destruct (sk_uri call); reflexivity.
Qed.

Lemma copy_locations_copies (calls : list SinkCall) (h : Heap) :
  Forall2 copies (fst (copy_locations (map streamed calls) h)) calls.
Proof.
  revert h. induction calls as [|call rest IH]; intros h; simpl.
  - constructor.
  - destruct (dup_cstr (or_default (sk_uri call) "") h) as [u h1] eqn:Hdup.
    specialize (IH h1).
    destruct (copy_locations (map streamed rest) h1) as [arr h2].
    simpl in *. constructor; [|exact IH].
    unfold copies. simpl. repeat split.
    unfold dup_cstr in Hdup.
    destruct (empty (or_default (sk_uri call) "")).
    + inversion Hdup. now left.
    + destruct (malloc h) as [granted h']. destruct granted; simpl in Hdup;
        inversion Hdup; [now right | now left].
Qed.

Lemma copy_locations_granted (locs : list Location) (h : Heap) :
  (forall k : nat, grants h k = true) ->
  fst (copy_locations locs h) = map copy_of locs.
Proof.
  revert h. induction locs as [|loc rest IH]; intros h Hall; simpl.
  - reflexivity.
  - unfold dup_cstr, copy_of at 1.
    destruct (empty (wl_uri loc)).
    + specialize (IH h Hall).
      destruct (copy_locations rest h) as [arr h2]. simpl in *. now rewrite IH.
    + unfold malloc. rewrite Hall. simpl.
      specialize (IH {| grants := grants h; mallocs := S (mallocs h) |} Hall).
      destruct (copy_locations rest _) as [arr h2]. simpl in *. now rewrite IH.
Qed.

Lemma store_store {A : Type} (p : out A) (v v' : A) :
  store (store p v) v' = store p v'.
Proof.
  destruct p; reflexivity.
Qed.



Lemma firstn_whole {A : Type} (l : list A) :
  firstn (Z.to_nat (Z.of_nat (List.length l))) l = l.
Proof.
  rewrite Nat2Z.id. apply firstn_all.
Qed.

Lemma size_nonzero (resp : ReferencesAtResponse) :
  locations resp <> [] -> (locations_size resp =? 0) = false.
Proof.
  unfold locations_size. destruct (locations resp); [contradiction|].
  intros _. reflexivity.
Qed.

Lemma copy_locations_requests (locs : list Location) (h : Heap) :
  mallocs (snd (copy_locations locs h)) =
    (mallocs h + List.length (with_uri locs))%nat
  /\ grants (snd (copy_locations locs h)) = grants h.
Proof.
  revert h. induction locs as [|loc rest IH]; intros h; simpl.
  - split; [lia | reflexivity].
  - unfold dup_cstr, malloc. destruct (empty (wl_uri loc)); simpl.
    + specialize (IH h). destruct (copy_locations rest h) as [arr h2].
      exact IH.
    + destruct (grants h (mallocs h)); simpl.
      * specialize (IH {| grants := grants h; mallocs := S (mallocs h) |}).
        destruct (copy_locations rest _) as [arr h2]. simpl in *.
        destruct IH as [IHn IHg]. split; [lia | exact IHg].
      * specialize (IH {| grants := grants h; mallocs := S (mallocs h) |}).
        destruct (copy_locations rest _) as [arr h2]. simpl in *.
        destruct IH as [IHn IHg]. split; [lia | exact IHg].
Qed.

Lemma std_string_fixed (s : string) :
  std_string (std_string s) = std_string s.
Proof.
  induction s as [|ch rest IH]; simpl.
  - reflexivity.
  - destruct (Ascii.eqb ch zero) eqn:Hz; simpl.
    + reflexivity.
    + now rewrite Hz, IH.
Qed.

Lemma std_string_append (a b : string) :
  std_string (std_string a ++ std_string b) = (std_string a ++ std_string b)%string.
Proof.
  induction a as [|ch rest IH]; simpl.
  - apply std_string_fixed.
  - destruct (Ascii.eqb ch zero) eqn:Hz; simpl.
    + apply std_string_fixed.
    + now rewrite Hz, IH.
Qed.

Lemma length_append (a b : string) :
  String.length (a ++ b) = (String.length a + String.length b)%nat.
Proof.
  induction a as [|ch rest IH]; simpl; [reflexivity | now rewrite IH].
Qed.

Lemma to_int_small (n : Z) : 0 <= n <= INT_MAX -> to_int n = n.
Proof.
  unfold to_int, INT_MAX. intros Hn.
  rewrite Z.mod_small by lia. lia.
Qed.

Lemma byte_difference (ca cb : ascii) :
  Ascii.eqb ca cb = false ->
  Z.of_nat (nat_of_ascii ca) - Z.of_nat (nat_of_ascii cb) <> 0.
Proof.
  intros Hne Hdiff. apply Ascii.eqb_neq in Hne. apply Hne.
  rewrite <- (ascii_nat_embedding ca), <- (ascii_nat_embedding cb).
  f_equal. lia.
Qed.

Lemma strncmp_bytes_prefix (b a : string) :
  (String.length b <= String.length a)%nat ->
  strncmp_bytes a b (String.length b) = 0 <->
  exists rest : string, a = (b ++ rest)%string.
Proof.
  revert a. induction b as [|cb rb IH]; intros a Hlen; simpl.
  - split; [intros _; now exists a | reflexivity].
  - destruct a as [|ca ra]; simpl in Hlen; [lia|].
    destruct (Ascii.eqb ca cb) eqn:Hc.
    + apply Ascii.eqb_eq in Hc. subst cb.
      rewrite (IH ra) by lia. split.
      * intros [rest ->]. now exists rest.
      * intros [rest Heq]. inversion Heq. now exists rest.
    + split.
      * intros Hzero. now apply byte_difference in Hc.
      * intros [rest Heq]. inversion Heq. subst.
        rewrite Ascii.eqb_refl in Hc. discriminate.
Qed.

(** The entry the copy loop makes of the [i]-th location: its uri is asked
    of the heap after one request for each non-empty uri before it. *)
Lemma copy_locations_nth (locs : list Location) (h : Heap) (i : nat)
    (loc : Location) :
  nth_error locs i = Some loc ->
  nth_error (fst (copy_locations locs h)) i =
    Some {| uri := if empty (wl_uri loc) then None
                   else if grants h (mallocs h
                                     + List.length (with_uri (firstn i locs)))
                        then Some (wl_uri loc) else None;
            line := wl_line loc;
            character := wl_character loc |}.
Proof.
  revert h i. induction locs as [|first rest IH]; intros h i Hnth.
  - destruct i; discriminate.
  - simpl. unfold dup_cstr, malloc. destruct i as [|i].
    + simpl in Hnth. inversion Hnth. subst first. simpl.
      rewrite Nat.add_0_r.
      destruct (empty (wl_uri loc)).
      * destruct (copy_locations rest h). reflexivity.
      * destruct (grants h (mallocs h)); simpl;
          destruct (copy_locations rest _); reflexivity.
    + simpl in Hnth. simpl firstn. unfold with_uri. simpl filter.
      fold (with_uri (firstn i rest)).
      destruct (empty (wl_uri first)); simpl.
      * specialize (IH h i Hnth).
        destruct (copy_locations rest h). simpl in *. exact IH.
      * specialize (IH {| grants := grants h; mallocs := S (mallocs h) |}
                       i Hnth).
        simpl in IH. rewrite <- Nat.add_succ_comm.
        destruct (grants h (mallocs h)); simpl;
          destruct (copy_locations rest _); simpl in *; exact IH.
Qed.

(** ** The client handle's timeouts *)

(** C6. On a valid handle [janus_oracle_client_set_timeouts] returns 0 and
    replaces exactly the timeouts whose argument is not zero: a zero argument
    leaves its field as it was, and the channel and the stub are never
    touched. In particular [(0, 500)] keeps the connect timeout and sets the
    call timeout to 500. *)
Theorem set_timeouts_changes_nonzero_only
    (c : JanusOracleClient) (connect_ms rpc_ms : Z) :
  janus_oracle_client_set_timeouts (Some c) connect_ms rpc_ms =
    (0, Some {| channel := channel c; stub := stub c;
                connect_timeout_ms :=
                  if connect_ms =? 0 then connect_timeout_ms c else connect_ms;
                rpc_timeout_ms :=
                  if rpc_ms =? 0 then rpc_timeout_ms c else rpc_ms |})
  /\ janus_oracle_client_set_timeouts (Some c) 0 500 =
       (0, Some {| channel := channel c; stub := stub c;
                   connect_timeout_ms := connect_timeout_ms c;
                   rpc_timeout_ms := 500 |})
  /\ janus_oracle_client_set_timeouts (Some c) 0 0 = (0, Some c).
Proof.
  destruct c as [chan stb ct rt].
  repeat split; unfold janus_oracle_client_set_timeouts; simpl;
    try reflexivity.
  destruct (connect_ms =? 0), (rpc_ms =? 0); reflexivity.
Qed.

(** ** Stopping the server *)

(** C8. [janus_oracle_server_stop] fails (with 1) on the null handle only. On
    any other handle it returns 0, asks the transport to shut the endpoint
    down when there is one, leaves the handle without endpoint, and does
    nothing else on a handle that has none; stopping a second time changes
    neither the result, nor the handle, nor what the transport was asked. *)
Theorem server_stop_once_or_twice
    (W : Type) (s : JanusOracleServer W) (log : list NetEvent) :
  janus_oracle_server_stop (W := W) None log = (1, None, log)
  /\ janus_oracle_server_stop (Some s) log =
       (0, Some (set_server s None),
        (log ++ match server s with
                | Some g => [EvShutdown (address g)]
                | None => []
                end)%list)
  /\ janus_oracle_server_stop (Some (set_server s None)) log =
       (0, Some (set_server s None), log)
  /\ (let '(rc, s1, log1) := janus_oracle_server_stop (Some s) log in
      janus_oracle_server_stop s1 log1 = (rc, s1, log1)).
Proof.
  destruct s as [hst prt [g|] f1 f2 f3 f4 usr];
    unfold janus_oracle_server_stop, set_server; simpl;
    rewrite ?app_nil_r; repeat split; reflexivity.
Qed.

(** ** Absent results are successes *)

(** C5. On a connected handle, when the call comes back with an empty
    markdown string, [janus_oracle_hover_at] returns 0 and leaves the null
    pointer in [*markdown_out]; nothing is allocated. *)
Theorem hover_at_empty_markdown_is_success
    (c : JanusOracleClient) (st : Stub) (uri_arg : cstr)
    (line_arg character_arg : Z) (markdown_out : out cstr) (h : Heap)
    (resp : HoverAtResponse) :
  stub c = Some st ->
  stub_HoverAt st (rpc_timeout_ms c)
    (position_request uri_arg line_arg character_arg) = Return (OK, resp) ->
  hv_markdown resp = "" ->
  janus_oracle_hover_at no_faults (Some c) uri_arg line_arg character_arg
    markdown_out h =
    {| hvr_rc := 0; hvr_markdown_out := store markdown_out None;
       hvr_heap := h |}.
Proof.
  intros Hst Hcall Hmd. unfold janus_oracle_hover_at.
  rewrite (usable_connected c st Hst). simpl.
  unfold position_request in Hcall. rewrite Hcall. simpl.
  rewrite Hmd. destruct markdown_out; reflexivity.
Qed.

Lemma hover_at_empty_markdown_is_success_witness :
  janus_oracle_hover_at no_faults (Some sample_client)
    (Some "file:///a.jan") 3 4 (Some (Some "stale")) plentiful =
    {| hvr_rc := 0; hvr_markdown_out := Some None; hvr_heap := plentiful |}.
Proof.
  apply (hover_at_empty_markdown_is_success sample_client
           (loopback sample_server tt 0) (Some "file:///a.jan") 3 4
           (Some (Some "stale")) plentiful fresh_HoverAtResponse);
    reflexivity.
Defined.

(** What [janus_oracle_definition_at] does when the call comes back with
    [found = false]: it returns 0, writes [false] and the null pointer, and
    does not write to [*def_line_out] and [*def_character_out]. *)
Lemma definition_at_not_found
    (c : JanusOracleClient) (st : Stub) (uri_arg : cstr)
    (line_arg character_arg : Z) (found_out : out bool) (uri_out : out cstr)
    (def_line_out def_character_out : out Z) (h : Heap)
    (resp : DefinitionAtResponse) :
  stub c = Some st ->
  stub_DefinitionAt st (rpc_timeout_ms c)
    (position_request uri_arg line_arg character_arg) = Return (OK, resp) ->
  def_found resp = false ->
  janus_oracle_definition_at no_faults (Some c) uri_arg line_arg character_arg
    found_out uri_out def_line_out def_character_out h =
    {| dfr_rc := 0; dfr_found_out := store found_out false;
       dfr_uri_out := store uri_out None;
       dfr_def_line_out := def_line_out;
       dfr_def_character_out := def_character_out;
       dfr_heap := h |}.
Proof.
  intros Hst Hcall Hfound. unfold janus_oracle_definition_at.
  rewrite (usable_connected c st Hst). simpl.
  unfold position_request in Hcall. rewrite Hcall. simpl.
  rewrite Hfound. destruct found_out; reflexivity.
Qed.

(** C4. A caller whose line and character cells hold 7 and 9 asks for a
    definition where there is none: [janus_oracle_definition_at] returns 0
    with [found = false] and a null uri, and the two cells still hold 7 and
    9, not zero. *)
Theorem definition_at_not_found_keeps_stale_position :
  janus_oracle_definition_at no_faults (Some sample_client)
    (Some "file:///a.jan") 3 4
    (Some true) (Some (Some "stale")) (Some 7) (Some 9) plentiful =
    {| dfr_rc := 0; dfr_found_out := Some false; dfr_uri_out := Some None;
       dfr_def_line_out := Some 7; dfr_def_character_out := Some 9;
       dfr_heap := plentiful |}.
Proof.
  reflexivity.
Qed.

(** ** Reference queries *)

(** C3, as the code has it. A reference query on a connected handle,
    answered by a service whose handler streamed [calls] to the sink and
    returned 0. If the handler streamed nothing,
    [janus_oracle_references_at] returns 0 with a null array and a count of
    0. If it streamed N > 0 locations and the array can be allocated, the
    operation returns 0 with a count of N and an array whose entries copy the
    streamed locations one for one, in the order of the handler's calls; when
    every allocation succeeds the copy is exact. If it streamed N > 0
    locations and the array cannot be allocated, the operation returns 3
    with a null array and a count of 0. *)
Theorem references_at_returns_streamed_locations
    (W : Type) (owner : JanusOracleServer W) (w w1 : W)
    (handler : JanusReferencesAtFn W) (calls : list SinkCall)
    (c : JanusOracleClient) (st : Stub) (uri_arg : cstr)
    (line_arg character_arg : Z) (incl : bool)
    (locations_out : out (option (list JanusOracleLocation)))
    (count_out : out Z) (h : Heap) :
  stub c = Some st ->
  on_references_at owner = Some handler ->
  handler (c_str (or_default uri_arg "")) line_arg character_arg incl
          (user owner) w = (0, calls, w1) ->
  stub_ReferencesAt st (rpc_timeout_ms c)
    (references_request uri_arg line_arg character_arg incl) =
    Return (OK,
            response (ServiceImpl_ReferencesAt owner
                        (references_request uri_arg line_arg character_arg incl)
                        fresh_ReferencesAtResponse w)) ->
  Z.of_nat (List.length calls) <= INT_MAX ->
  (calls = [] ->
   janus_oracle_references_at no_faults (Some c) uri_arg line_arg
     character_arg incl locations_out count_out h =
     {| rfr_rc := 0; rfr_locations_out := store locations_out None;
        rfr_count_out := store count_out 0; rfr_heap := h |})
  /\ (calls <> [] -> grants h (mallocs h) = true ->
      exists arr : list JanusOracleLocation,
        rfr_rc (janus_oracle_references_at no_faults (Some c) uri_arg
                  line_arg character_arg incl locations_out count_out h) = 0
        /\ rfr_locations_out
             (janus_oracle_references_at no_faults (Some c) uri_arg
                line_arg character_arg incl locations_out count_out h) =
             store locations_out (Some arr)
        /\ rfr_count_out
             (janus_oracle_references_at no_faults (Some c) uri_arg
                line_arg character_arg incl locations_out count_out h) =
             store count_out (Z.of_nat (List.length calls))
        /\ Forall2 copies arr calls
        /\ ((forall k : nat, grants h k = true) ->
            arr = map copy_of (map streamed calls)))
  /\ (calls <> [] -> grants h (mallocs h) = false ->
      janus_oracle_references_at no_faults (Some c) uri_arg line_arg
        character_arg incl locations_out count_out h =
        {| rfr_rc := 3; rfr_locations_out := store locations_out None;
           rfr_count_out := store count_out 0;
           rfr_heap := snd (malloc h) |}).
Proof.
  intros Hst Hon Hrun Hcall Hsize.
  assert (Hresp :
    response (ServiceImpl_ReferencesAt owner
                (references_request uri_arg line_arg character_arg incl)
                fresh_ReferencesAtResponse w) =
    {| locations := map streamed calls |}).
  { unfold ServiceImpl_ReferencesAt. rewrite Hon. simpl. rewrite Hrun.
    simpl. now rewrite sink_appends_in_call_order. }
  rewrite Hresp in Hcall. clear Hresp.
  unfold janus_oracle_references_at.
  rewrite (usable_connected c st Hst). simpl.
  unfold references_request in Hcall. rewrite Hcall. simpl.
  rewrite to_uint32_locations_size
    by (unfold locations_size; simpl; now rewrite length_map).
  unfold locations_size. simpl. rewrite length_map.
  split; [|split].
  - intros ->. reflexivity.
  - intros Hne Hgrant.
    destruct (Z.of_nat (List.length calls) =? 0) eqn:Hzero.
    + apply Z.eqb_eq in Hzero. destruct calls; [contradiction | discriminate].
    + rewrite Hgrant. simpl.
      rewrite Nat2Z.id.
      replace (firstn (List.length calls) (map streamed calls))
        with (map streamed calls)
        by (symmetry; rewrite <- (length_map streamed calls) at 1;
            apply firstn_all).
      set (h1 := {| grants := grants h; mallocs := S (mallocs h) |}).
      pose proof (copy_locations_copies calls h1) as Hcopies.
      pose proof (copy_locations_granted (map streamed calls) h1) as Hexact.
      destruct (copy_locations (map streamed calls) h1) as [arr h2].
      simpl in *. exists arr. rewrite !store_store.
      repeat split; try reflexivity; assumption.
  - intros Hne Hrefused.
    destruct (Z.of_nat (List.length calls) =? 0) eqn:Hzero.
    + apply Z.eqb_eq in Hzero. destruct calls; [contradiction | discriminate].
    + rewrite Hrefused. reflexivity.
Qed.

Lemma references_at_returns_streamed_locations_witness :
  rfr_rc (janus_oracle_references_at no_faults (Some sample_client)
            (Some "file:///a.jan") 3 4 true (Some None) (Some 0) plentiful)
    = 0
  /\ rfr_locations_out
       (janus_oracle_references_at no_faults (Some sample_client)
          (Some "file:///a.jan") 3 4 true (Some None) (Some 0) plentiful)
     = Some (Some [ {| uri := Some "file:///a.jan";
                       line := 1; character := 2 |};
                    {| uri := Some "file:///b.jan";
                       line := 5; character := 0 |} ])
  /\ rfr_count_out
       (janus_oracle_references_at no_faults (Some sample_client)
          (Some "file:///a.jan") 3 4 true (Some None) (Some 0) plentiful)
     = Some 2.
Proof.
  destruct (references_at_returns_streamed_locations unit sample_server tt tt
              two_references
              [ {| sk_uri := Some "file:///a.jan";
                   sk_line := 1; sk_character := 2 |};
                {| sk_uri := Some "file:///b.jan";
                   sk_line := 5; sk_character := 0 |} ]
              sample_client (loopback sample_server tt 0)
              (Some "file:///a.jan") 3 4 true (Some None) (Some 0) plentiful
              eq_refl eq_refl eq_refl eq_refl
              ltac:(vm_compute; discriminate)) as [_ [Hmany _]].
  destruct (Hmany ltac:(discriminate) eq_refl)
    as [arr [Hrc [Hlocs [Hcount [_ Hexact]]]]].
  rewrite (Hexact (fun _ => eq_refl)) in Hlocs.
  split; [exact Hrc | split; [exact Hlocs | exact Hcount]].
Defined.

(** C3 as it is stated does not hold. On a connected handle, the remote
    call succeeds and its response carries the two locations the handler
    streamed; the heap refuses the block for the output array. The operation
    returns 3 with a null array and a count of 0, not 0 with two entries. *)
Lemma references_at_refused_array_is_a_failure :
  stub_ReferencesAt (loopback sample_server tt 0)
    (rpc_timeout_ms sample_client)
    (references_request (Some "file:///a.jan") 3 4 true) =
    Return (OK,
            {| locations :=
                 [ {| wl_uri := "file:///a.jan";
                      wl_line := 1; wl_character := 2 |};
                   {| wl_uri := "file:///b.jan";
                      wl_line := 5; wl_character := 0 |} ] |})
  /\ janus_oracle_references_at no_faults (Some sample_client)
       (Some "file:///a.jan") 3 4 true (Some None) (Some 0) exhausted =
       {| rfr_rc := 3; rfr_locations_out := Some None;
          rfr_count_out := Some 0; rfr_heap := snd (malloc exhausted) |}
  /\ rfr_rc (janus_oracle_references_at no_faults (Some sample_client)
               (Some "file:///a.jan") 3 4 true (Some None) (Some 0)
               exhausted) <> 0.
Proof.
  repeat split. discriminate.
Qed.

Section ReferencesFailures.

Variables (c : JanusOracleClient) (st : Stub).
Variables (uri_arg : cstr) (line_arg character_arg : Z) (incl : bool).
Variable locations_out : out (option (list JanusOracleLocation)).
Variable count_out : out Z.

Local Abbreviation call fl h :=
  (janus_oracle_references_at fl (Some c) uri_arg line_arg character_arg
     incl locations_out count_out h).
Local Abbreviation remote_call :=
  (stub_ReferencesAt st (rpc_timeout_ms c)
     (references_request uri_arg line_arg character_arg incl)).

(** C7, as the code has it. On a connected handle
    [janus_oracle_references_at] returns 4 for every exception raised inside
    the call: while the request is built, by the remote call itself, or
    while the answer is read back. When the remote call has succeeded with at
    least one location, a refused allocation of the output array is reported
    with 3 and both outputs stay cleared. Once the array is allocated the
    operation returns 0 whatever becomes of the later allocations, and an
    entry whose uri could not be allocated has a null uri beside its line and
    character: the block for the uri of the [i]-th location is the request
    that follows the array's and those for the non-empty uris before it. *)
Theorem references_at_local_failure_codes (fl : Faults) (h : Heap) :
  stub c = Some st ->
  (build_throws fl = true ->
   call fl h = {| rfr_rc := 4; rfr_locations_out := store locations_out None;
                  rfr_count_out := store count_out 0; rfr_heap := h |})
  /\ (remote_call = Throw -> rfr_rc (call fl h) = 4)
  /\ (forall resp : ReferencesAtResponse,
        build_throws fl = false ->
        remote_call = Return (OK, resp) ->
        marshal_throws fl = true ->
        call fl h =
          {| rfr_rc := 4; rfr_locations_out := store locations_out None;
             rfr_count_out := store count_out 0; rfr_heap := h |})
  /\ (forall resp : ReferencesAtResponse,
        fl = no_faults ->
        remote_call = Return (OK, resp) ->
        locations resp <> [] ->
        locations_size resp <= INT_MAX ->
        (grants h (mallocs h) = false ->
         call fl h =
           {| rfr_rc := 3; rfr_locations_out := store locations_out None;
              rfr_count_out := store count_out 0;
              rfr_heap := snd (malloc h) |})
        /\ (grants h (mallocs h) = true ->
            rfr_rc (call fl h) = 0
            /\ exists arr : list JanusOracleLocation,
                 rfr_locations_out (call fl h)
                   = store locations_out (Some arr)
                 /\ forall (i : nat) (loc : Location),
                      nth_error (locations resp) i = Some loc ->
                      wl_uri loc <> "" ->
                      grants h (S (mallocs h)
                                + List.length
                                    (with_uri (firstn i (locations resp))))
                        = false ->
                      nth_error arr i = Some (without_uri loc))).
Proof.
  intros Hst. unfold janus_oracle_references_at, references_request.
  rewrite (usable_connected c st Hst).
  split; [|split; [|split]].
  - intros Hbuild. rewrite Hbuild. reflexivity.
  - intros Hthrow. rewrite Hthrow.
    destruct (build_throws fl); reflexivity.
  - intros resp Hbuild Hcall Hmarshal.
    rewrite Hbuild, Hcall, Hmarshal. reflexivity.
  - intros resp -> Hcall Hne Hsize. simpl. rewrite Hcall. simpl.
    rewrite (to_uint32_locations_size _ Hsize), (size_nonzero _ Hne).
    split; intros Hanswer; rewrite Hanswer; simpl.
    + reflexivity.
    + unfold locations_size. rewrite firstn_whole.
      pose proof (copy_locations_nth (locations resp)
                    {| grants := grants h; mallocs := S (mallocs h) |})
        as Hentry.
      destruct (copy_locations _ _) as [arr h2]. simpl in *.
      split; [reflexivity|]. exists arr.
      split; [now rewrite store_store|].
      intros i loc Hnth Huri Hrefused.
      rewrite (Hentry i loc Hnth), Hrefused.
      unfold without_uri. now destruct (empty (wl_uri loc)).
Qed.

End ReferencesFailures.

Lemma references_at_local_failure_codes_witness :
  janus_oracle_references_at build_fault (Some sample_client)
    (Some "file:///a.jan") 3 4 true (Some None) (Some 0) plentiful =
    {| rfr_rc := 4; rfr_locations_out := Some None;
       rfr_count_out := Some 0; rfr_heap := plentiful |}
  /\ janus_oracle_references_at no_faults (Some sample_client)
       (Some "file:///a.jan") 3 4 true (Some None) (Some 0) exhausted =
       {| rfr_rc := 3; rfr_locations_out := Some None;
          rfr_count_out := Some 0; rfr_heap := snd (malloc exhausted) |}
  /\ (rfr_rc (janus_oracle_references_at no_faults (Some sample_client)
                (Some "file:///a.jan") 3 4 true (Some None) (Some 0)
                one_block) = 0
      /\ exists arr : list JanusOracleLocation,
           rfr_locations_out
             (janus_oracle_references_at no_faults (Some sample_client)
                (Some "file:///a.jan") 3 4 true (Some None) (Some 0)
                one_block) = Some (Some arr)
           /\ nth_error arr 1 =
                Some {| uri := None; line := 5; character := 0 |}).
Proof.
  destruct (references_at_local_failure_codes sample_client
              (loopback sample_server tt 0) (Some "file:///a.jan") 3 4 true
              (Some None) (Some 0) build_fault plentiful eq_refl)
    as [Hbuild _].
  destruct (references_at_local_failure_codes sample_client
              (loopback sample_server tt 0) (Some "file:///a.jan") 3 4 true
              (Some None) (Some 0) no_faults exhausted eq_refl)
    as [_ [_ [_ Halloc]]].
  destruct (Halloc
              {| locations :=
                   [ {| wl_uri := "file:///a.jan";
                        wl_line := 1; wl_character := 2 |};
                     {| wl_uri := "file:///b.jan";
                        wl_line := 5; wl_character := 0 |} ] |}
              eq_refl eq_refl ltac:(discriminate)
              ltac:(vm_compute; discriminate)) as [Hrefused _].
  destruct (references_at_local_failure_codes sample_client
              (loopback sample_server tt 0) (Some "file:///a.jan") 3 4 true
              (Some None) (Some 0) no_faults one_block eq_refl)
    as [_ [_ [_ Hstrings]]].
  destruct (Hstrings
              {| locations :=
                   [ {| wl_uri := "file:///a.jan";
                        wl_line := 1; wl_character := 2 |};
                     {| wl_uri := "file:///b.jan";
                        wl_line := 5; wl_character := 0 |} ] |}
              eq_refl eq_refl ltac:(discriminate)
              ltac:(vm_compute; discriminate)) as [_ Hgranted].
  destruct (Hgranted eq_refl) as [Hrc [arr [Hlocs Hnull]]].
  split; [exact (Hbuild eq_refl) | split; [exact (Hrefused eq_refl) |]].
  split; [exact Hrc |]. exists arr. split; [exact Hlocs |].
  exact (Hnull 1%nat
           {| wl_uri := "file:///b.jan"; wl_line := 5; wl_character := 0 |}
           eq_refl ltac:(discriminate) eq_refl).
Defined.

(** C7 as it is stated does not hold. With a successful remote call that
    carries two locations: a heap that refuses the array makes the operation
    return 3, not 4; a heap that grants the array and refuses the uri strings
    makes it return 0; and an exception raised while the request is built
    makes it return 4, not 3. *)
Lemma references_at_marshaling_failure_is_not_4 :
  rfr_rc (janus_oracle_references_at no_faults (Some sample_client)
            (Some "file:///a.jan") 3 4 true (Some None) (Some 0) exhausted)
    = 3
  /\ janus_oracle_references_at no_faults (Some sample_client)
       (Some "file:///a.jan") 3 4 true (Some None) (Some 0) one_block =
       {| rfr_rc := 0;
          rfr_locations_out :=
            Some (Some [ {| uri := None; line := 1; character := 2 |};
                         {| uri := None; line := 5; character := 0 |} ]);
          rfr_count_out := Some 2;
          rfr_heap := {| grants := grants one_block; mallocs := 3 |} |}
  /\ rfr_rc (janus_oracle_references_at build_fault (Some sample_client)
               (Some "file:///a.jan") 3 4 true (Some None) (Some 0) plentiful)
     = 4.
Proof.
  repeat split.
Qed.

(** The catch-all of the other three call operations returns 3 where that
    of [janus_oracle_references_at] returns 4. *)
Example catch_all_codes :
  dur_rc (janus_oracle_doc_update no_faults (Some raising_client)
            (Some "file:///a.jan") (Some "fn main()") (Some false)) = 3
  /\ hvr_rc (janus_oracle_hover_at no_faults (Some raising_client)
               (Some "file:///a.jan") 3 4 (Some None) plentiful) = 3
  /\ dfr_rc (janus_oracle_definition_at no_faults (Some raising_client)
               (Some "file:///a.jan") 3 4 (Some false) (Some None)
               (Some 0) (Some 0) plentiful) = 3
  /\ rfr_rc (janus_oracle_references_at no_faults (Some raising_client)
               (Some "file:///a.jan") 3 4 true (Some None) (Some 0)
               plentiful) = 4.
Proof.
  repeat split.
Qed.

(** ** Heap strings *)

Section HeapStrings.

Variables (c : JanusOracleClient) (st : Stub).
Variables (uri_arg : cstr) (line_arg character_arg : Z).


End HeapStrings.


(** ** Timeouts *)

Ltac walk_call :=
  repeat match goal with
         | |- context [if ?b then _ else _] => destruct b; simpl
         | |- context [let (_, _) := ?x in _] => destruct x; simpl
         end.

Section CallTimeouts.

Variables (c : JanusOracleClient) (st : Stub) (fl : Faults) (h : Heap).
Variables (uri_arg content_arg : cstr) (line_arg character_arg : Z).
Variable incl : bool.
Variables (ok_out found_out : out bool) (markdown_out uri_out : out cstr).
Variables (def_line_out def_character_out count_out : out Z).
Variable locations_out : out (option (list JanusOracleLocation)).

(** C2, as the code has it. On a connected handle each of the four call
    operations gives its remote call the handle's [rpc_timeout_ms]; when
    that call ends with a status other than OK the operation returns 5 if
    the status is [DEADLINE_EXCEEDED] and 2 otherwise, and it returns 5 in no
    other case. [janus_oracle_client_connect] waits 1500 milliseconds for the
    channel and, when the channel is not ready by then, returns the null
    handle; no code comes with it. *)
Theorem deadline_exceeded_has_its_own_code :
  stub c = Some st ->
  (forall (s : StatusCode) (resp : DocUpdateResponse),
      build_throws fl = false ->
      stub_DocUpdate st (rpc_timeout_ms c)
        {| du_uri := or_default uri_arg "";
           du_content := or_default content_arg "" |} = Return (s, resp) ->
      s <> OK ->
      dur_rc (janus_oracle_doc_update fl (Some c) uri_arg content_arg ok_out)
        = if deadline_exceeded s then 5 else 2)
  /\ (dur_rc (janus_oracle_doc_update fl (Some c) uri_arg content_arg ok_out)
        = 5 ->
      exists resp : DocUpdateResponse,
        stub_DocUpdate st (rpc_timeout_ms c)
          {| du_uri := or_default uri_arg "";
             du_content := or_default content_arg "" |}
          = Return (DEADLINE_EXCEEDED, resp))
  /\ (forall (s : StatusCode) (resp : HoverAtResponse),
      build_throws fl = false ->
      stub_HoverAt st (rpc_timeout_ms c)
        (position_request uri_arg line_arg character_arg) = Return (s, resp) ->
      s <> OK ->
      hvr_rc (janus_oracle_hover_at fl (Some c) uri_arg line_arg character_arg
                markdown_out h)
        = if deadline_exceeded s then 5 else 2)
  /\ (hvr_rc (janus_oracle_hover_at fl (Some c) uri_arg line_arg character_arg
                markdown_out h) = 5 ->
      exists resp : HoverAtResponse,
        stub_HoverAt st (rpc_timeout_ms c)
          (position_request uri_arg line_arg character_arg)
          = Return (DEADLINE_EXCEEDED, resp))
  /\ (forall (s : StatusCode) (resp : DefinitionAtResponse),
      build_throws fl = false ->
      stub_DefinitionAt st (rpc_timeout_ms c)
        (position_request uri_arg line_arg character_arg) = Return (s, resp) ->
      s <> OK ->
      dfr_rc (janus_oracle_definition_at fl (Some c) uri_arg line_arg
                character_arg found_out uri_out def_line_out
                def_character_out h)
        = if deadline_exceeded s then 5 else 2)
  /\ (dfr_rc (janus_oracle_definition_at fl (Some c) uri_arg line_arg
                character_arg found_out uri_out def_line_out
                def_character_out h) = 5 ->
      exists resp : DefinitionAtResponse,
        stub_DefinitionAt st (rpc_timeout_ms c)
          (position_request uri_arg line_arg character_arg)
          = Return (DEADLINE_EXCEEDED, resp))
  /\ (forall (s : StatusCode) (resp : ReferencesAtResponse),
      build_throws fl = false ->
      stub_ReferencesAt st (rpc_timeout_ms c)
        (references_request uri_arg line_arg character_arg incl)
        = Return (s, resp) ->
      s <> OK ->
      rfr_rc (janus_oracle_references_at fl (Some c) uri_arg line_arg
                character_arg incl locations_out count_out h)
        = if deadline_exceeded s then 5 else 2)
  /\ (rfr_rc (janus_oracle_references_at fl (Some c) uri_arg line_arg
                character_arg incl locations_out count_out h) = 5 ->
      exists resp : ReferencesAtResponse,
        stub_ReferencesAt st (rpc_timeout_ms c)
          (references_request uri_arg line_arg character_arg incl)
          = Return (DEADLINE_EXCEEDED, resp))
  /\ (forall (net : Transport) (host_arg : cstr) (port_arg : Z),
      WaitForConnected net
        (CreateChannel (or_default host_arg "127.0.0.1" ++ ":"
                          ++ to_string port_arg)) 1500 = false ->
      fst (janus_oracle_client_connect net fl host_arg port_arg h) = None).
Proof.
  intros Hst.
  unfold janus_oracle_doc_update, janus_oracle_hover_at,
    janus_oracle_definition_at, janus_oracle_references_at,
    position_request, references_request.
  rewrite (usable_connected c st Hst).
  repeat match goal with |- _ /\ _ => split end.
  - intros s resp Hbuild Hcall Hs. rewrite Hbuild, Hcall. simpl.
    destruct s; try reflexivity. now elim Hs.
  - destruct (build_throws fl); simpl; [discriminate|].
    destruct (stub_DocUpdate st _ _) as [[s resp]|]; simpl; [|discriminate].
    destruct s; unfold bind, raise_if, try_catch, failure_code; simpl;
      walk_call; try discriminate.
    intros _. now exists resp.
  - intros s resp Hbuild Hcall Hs. rewrite Hbuild, Hcall. simpl.
    destruct s; try reflexivity. now elim Hs.
  - destruct (build_throws fl); simpl; [discriminate|].
    destruct (stub_HoverAt st _ _) as [[s resp]|]; simpl; [|discriminate].
    destruct s; unfold bind, raise_if, try_catch, failure_code; simpl;
      walk_call; try discriminate.
    intros _. now exists resp.
  - intros s resp Hbuild Hcall Hs. rewrite Hbuild, Hcall. simpl.
    destruct s; try reflexivity. now elim Hs.
  - destruct (build_throws fl); simpl; [discriminate|].
    destruct (stub_DefinitionAt st _ _) as [[s resp]|]; simpl;
      [|discriminate].
    destruct s; unfold bind, raise_if, try_catch, failure_code; simpl;
      walk_call; try discriminate.
    intros _. now exists resp.
  - intros s resp Hbuild Hcall Hs. rewrite Hbuild, Hcall. simpl.
    destruct s; try reflexivity. now elim Hs.
  - destruct (build_throws fl); simpl; [discriminate|].
    destruct (stub_ReferencesAt st _ _) as [[s resp]|]; simpl;
      [|discriminate].
    destruct s; unfold bind, raise_if, try_catch, failure_code; simpl;
      walk_call; try discriminate.
    intros _. now exists resp.
  - intros net host_arg port_arg Hwait.
    unfold janus_oracle_client_connect, malloc.
    destruct (build_throws fl); [reflexivity|].
    cbn [raise_if bind try_catch].
    destruct (grants h (mallocs h)); [|reflexivity].
    cbn [negb connect_timeout_ms]. rewrite Hwait. reflexivity.
Qed.

End CallTimeouts.

Lemma deadline_exceeded_has_its_own_code_witness :
  dur_rc (janus_oracle_doc_update no_faults (Some slow_client)
            (Some "file:///a.jan") (Some "fn main()") (Some false)) = 5
  /\ hvr_rc (janus_oracle_hover_at no_faults (Some bare_client)
               (Some "file:///a.jan") 3 4 (Some None) plentiful) = 2
  /\ fst (janus_oracle_client_connect
            (peer_ready_after 2000 (loopback sample_server tt 0))
            no_faults (Some "127.0.0.1") 50051 plentiful) = None.
Proof.
  destruct (deadline_exceeded_has_its_own_code slow_client
              (loopback sample_server tt 5000) no_faults plentiful
              (Some "file:///a.jan") (Some "fn main()") 3 4 true
              (Some false) (Some false) (Some None) (Some None)
              (Some 0) (Some 0) (Some 0) (Some None) eq_refl)
    as [Hslow [_ [_ [_ [_ [_ [_ [_ Hconnect]]]]]]]].
  destruct (deadline_exceeded_has_its_own_code bare_client
              (loopback bare_server tt 0) no_faults plentiful
              (Some "file:///a.jan") (Some "fn main()") 3 4 true
              (Some false) (Some false) (Some None) (Some None)
              (Some 0) (Some 0) (Some 0) (Some None) eq_refl)
    as [_ [_ [Hbare _]]].
  split; [|split].
  - exact (Hslow DEADLINE_EXCEEDED fresh_DocUpdateResponse eq_refl eq_refl
             ltac:(discriminate)).
  - exact (Hbare UNIMPLEMENTED fresh_HoverAtResponse eq_refl eq_refl
             ltac:(discriminate)).
  - exact (Hconnect (peer_ready_after 2000 (loopback sample_server tt 0))
             (Some "127.0.0.1") 50051 eq_refl).
Defined.

(** C2 as it is stated does not hold for connect. A peer that is ready after
    two seconds, later than the 1500 milliseconds the operation waits, makes
    [janus_oracle_client_connect] return the null handle, and so do an
    exception raised while the channel is set up and a refused allocation of
    the handle: the caller is given no code to tell them apart. A peer that
    is ready at once gives a handle. *)
Lemma connect_timeout_is_a_null_handle :
  fst (janus_oracle_client_connect
         (peer_ready_after 2000 (loopback sample_server tt 0))
         no_faults (Some "127.0.0.1") 50051 plentiful) = None
  /\ fst (janus_oracle_client_connect
            (peer_ready_after 0 (loopback sample_server tt 0))
            build_fault (Some "127.0.0.1") 50051 plentiful) = None
  /\ fst (janus_oracle_client_connect
            (peer_ready_after 0 (loopback sample_server tt 0))
            no_faults (Some "127.0.0.1") 50051 exhausted) = None
  /\ fst (janus_oracle_client_connect
            (peer_ready_after 0 (loopback sample_server tt 0))
            no_faults (Some "127.0.0.1") 50051 plentiful) =
     Some sample_client.
Proof.
  repeat split.
Qed.

(** ** Dispatch in the service *)

Section Dispatch.

Variable W : Type.
Variables (owner : JanusOracleServer W) (w : W).

(** C1, as the code has it. For each of the four operations: when the
    handler is not set the service answers [UNIMPLEMENTED], runs no handler
    and leaves the response and the handlers' state as they were. When the
    handler is set and returns a code other than 0 the service answers
    [INTERNAL]; the response is untouched for DocUpdate, HoverAt and
    DefinitionAt, while for ReferencesAt it already holds, after what it
    held before, the locations the handler streamed to the sink. When the
    handler returns 0 the service answers [OK] and the response holds the
    handler's outputs: the ok flag; the markdown if the handler gave a
    pointer; the found flag and, only when it is set, the line, the
    character and the uri if the handler gave a pointer; the streamed
    locations in the order of the calls. *)
Theorem service_dispatch :
  (forall req resp,
      on_doc_update owner = None ->
      ServiceImpl_DocUpdate owner req resp w =
        {| status := UNIMPLEMENTED; response := resp;
           world := w; invoked := [] |})
  /\ (forall req resp,
      on_hover_at owner = None ->
      ServiceImpl_HoverAt owner req resp w =
        {| status := UNIMPLEMENTED; response := resp;
           world := w; invoked := [] |})
  /\ (forall req resp,
      on_definition_at owner = None ->
      ServiceImpl_DefinitionAt owner req resp w =
        {| status := UNIMPLEMENTED; response := resp;
           world := w; invoked := [] |})
  /\ (forall req resp,
      on_references_at owner = None ->
      ServiceImpl_ReferencesAt owner req resp w =
        {| status := UNIMPLEMENTED; response := resp;
           world := w; invoked := [] |})
  /\ (forall req resp handler rc ok_cell w1,
      on_doc_update owner = Some handler ->
      handler (c_str (du_uri req)) (c_str (du_content req)) false
              (user owner) w = (rc, ok_cell, w1) ->
      ServiceImpl_DocUpdate owner req resp w =
        if rc =? 0
        then {| status := OK; response := {| du_ok := ok_cell |};
                world := w1; invoked := [OpDocUpdate] |}
        else {| status := INTERNAL; response := resp;
                world := w1; invoked := [OpDocUpdate] |})
  /\ (forall req resp handler rc md w1,
      on_hover_at owner = Some handler ->
      handler (c_str (pos_uri req)) (pos_line req) (pos_character req) None
              (user owner) w = (rc, md, w1) ->
      ServiceImpl_HoverAt owner req resp w =
        if rc =? 0
        then {| status := OK;
                response := match md with
                            | Some s => {| hv_markdown := std_string s |}
                            | None => resp
                            end;
                world := w1; invoked := [OpHoverAt] |}
        else {| status := INTERNAL; response := resp;
                world := w1; invoked := [OpHoverAt] |})
  /\ (forall req resp handler rc cells w1,
      on_definition_at owner = Some handler ->
      handler (c_str (pos_uri req)) (pos_line req) (pos_character req)
              {| c_found := false; c_def_uri := None; c_line := 0; c_ch := 0 |}
              (user owner) w = (rc, cells, w1) ->
      ServiceImpl_DefinitionAt owner req resp w =
        if rc =? 0
        then {| status := OK;
                response :=
                  if c_found cells
                  then {| def_found := true;
                          def_uri := match c_def_uri cells with
                                     | Some s => std_string s
                                     | None => def_uri resp
                                     end;
                          def_line := c_line cells;
                          def_character := c_ch cells |}
                  else {| def_found := false; def_uri := def_uri resp;
                          def_line := def_line resp;
                          def_character := def_character resp |};
                world := w1; invoked := [OpDefinitionAt] |}
        else {| status := INTERNAL; response := resp;
                world := w1; invoked := [OpDefinitionAt] |})
  /\ (forall req resp handler rc calls w1,
      on_references_at owner = Some handler ->
      handler (c_str (ref_uri req)) (ref_line req) (ref_character req)
              (ref_include_declaration req) (user owner) w = (rc, calls, w1) ->
      ServiceImpl_ReferencesAt owner req resp w =
        {| status := if rc =? 0 then OK else INTERNAL;
           response :=
             {| locations := (locations resp ++ map streamed calls)%list |};
           world := w1; invoked := [OpReferencesAt] |}).
Proof.
  repeat match goal with |- _ /\ _ => split end.
  - intros req resp Hoff. unfold ServiceImpl_DocUpdate. now rewrite Hoff.
  - intros req resp Hoff. unfold ServiceImpl_HoverAt. now rewrite Hoff.
  - intros req resp Hoff. unfold ServiceImpl_DefinitionAt. now rewrite Hoff.
  - intros req resp Hoff. unfold ServiceImpl_ReferencesAt. now rewrite Hoff.
  - intros req resp handler rc ok_cell w1 Hon Hrun.
    unfold ServiceImpl_DocUpdate. rewrite Hon, Hrun.
    destruct (rc =? 0); reflexivity.
  - intros req resp handler rc md w1 Hon Hrun.
    unfold ServiceImpl_HoverAt. rewrite Hon, Hrun.
    destruct (rc =? 0); reflexivity.
  - intros req resp handler rc cells w1 Hon Hrun.
    unfold ServiceImpl_DefinitionAt. rewrite Hon, Hrun.
    destruct (rc =? 0); [|reflexivity]. simpl.
    destruct (c_found cells); reflexivity.
  - intros req resp handler rc calls w1 Hon Hrun.
    unfold ServiceImpl_ReferencesAt. rewrite Hon, Hrun.
    rewrite sink_appends_in_call_order.
    destruct (rc =? 0); reflexivity.
Qed.

End Dispatch.

Lemma service_dispatch_witness :
  ServiceImpl_HoverAt bare_server
    (position_request (Some "file:///a.jan") 3 4) fresh_HoverAtResponse tt =
    {| status := UNIMPLEMENTED; response := fresh_HoverAtResponse;
       world := tt; invoked := [] |}
  /\ ServiceImpl_DocUpdate sample_server
       {| du_uri := "file:///a.jan"; du_content := "fn main()" |}
       fresh_DocUpdateResponse tt =
       {| status := OK; response := {| du_ok := true |};
          world := tt; invoked := [OpDocUpdate] |}
  /\ ServiceImpl_ReferencesAt failing_server
       (references_request (Some "file:///a.jan") 3 4 true)
       fresh_ReferencesAtResponse tt =
       {| status := INTERNAL;
          response :=
            {| locations := [ {| wl_uri := "file:///a.jan";
                                 wl_line := 1; wl_character := 2 |} ] |};
          world := tt; invoked := [OpReferencesAt] |}.
Proof.
  destruct (service_dispatch unit bare_server tt) as [_ [Hoff _]].
  destruct (service_dispatch unit sample_server tt)
    as [_ [_ [_ [_ [Hdoc _]]]]].
  destruct (service_dispatch unit failing_server tt)
    as [_ [_ [_ [_ [_ [_ [_ Hrefs]]]]]]].
  split; [|split].
  - exact (Hoff (position_request (Some "file:///a.jan") 3 4)
             fresh_HoverAtResponse eq_refl).
  - exact (Hdoc {| du_uri := "file:///a.jan"; du_content := "fn main()" |}
             fresh_DocUpdateResponse doc_update_accepts 0 true tt
             eq_refl eq_refl).
  - exact (Hrefs (references_request (Some "file:///a.jan") 3 4 true)
             fresh_ReferencesAtResponse one_reference_then_error 1
             [ {| sk_uri := Some "file:///a.jan";
                  sk_line := 1; sk_character := 2 |} ] tt
             eq_refl eq_refl).
Defined.

(** C1 as it is stated does not hold for ReferencesAt. A handler that
    streams one location and then returns 1 gets the answer [INTERNAL], and
    the response holds the location it streamed: the sink had copied it
    before the handler returned. *)
Lemma failed_references_handler_keeps_streamed_locations :
  status (ServiceImpl_ReferencesAt failing_server
            (references_request (Some "file:///a.jan") 3 4 true)
            fresh_ReferencesAtResponse tt) = INTERNAL
  /\ response (ServiceImpl_ReferencesAt failing_server
                 (references_request (Some "file:///a.jan") 3 4 true)
                 fresh_ReferencesAtResponse tt) =
     {| locations := [ {| wl_uri := "file:///a.jan";
                          wl_line := 1; wl_character := 2 |} ] |}
  /\ response (ServiceImpl_ReferencesAt failing_server
                 (references_request (Some "file:///a.jan") 3 4 true)
                 fresh_ReferencesAtResponse tt) <> fresh_ReferencesAtResponse.
Proof.
  repeat split. discriminate.
Qed.

(** ** Null strings *)

Section NullStrings.

Variables (fl : Faults) (h : Heap).


End NullStrings.

(** ** What a failed call leaves behind *)

(** X1. Whenever [janus_oracle_hover_at] returns a code other than 0, for
    whatever reason, [*markdown_out] holds the null pointer and nothing has
    been allocated: the caller has nothing to release. *)
Theorem hover_at_failure_leaves_nothing
    (fl : Faults) (client : option JanusOracleClient) (uri_arg : cstr)
    (line_arg character_arg : Z) (markdown_out : out cstr) (h : Heap) :
  hvr_rc (janus_oracle_hover_at fl client uri_arg line_arg character_arg
            markdown_out h) <> 0 ->
  hvr_markdown_out (janus_oracle_hover_at fl client uri_arg line_arg
                      character_arg markdown_out h) = store markdown_out None
  /\ hvr_heap (janus_oracle_hover_at fl client uri_arg line_arg
                 character_arg markdown_out h) = h.
Proof.
  unfold janus_oracle_hover_at, usable.
  destruct client as [c|]; [|now split].
  destruct (stub c) as [st|]; [|now split].
  simpl. destruct (build_throws fl); simpl; [now split|].
  destruct (stub_HoverAt st _ _) as [[s resp]|]; simpl; [|now split].
  destruct (ok s); simpl; [|now split].
  destruct (marshal_throws fl); simpl; [now split|].
  destruct (store_dup _ _ _). simpl. intros Hrc. now elim Hrc.
Qed.

Lemma hover_at_failure_leaves_nothing_witness :
  hvr_markdown_out (janus_oracle_hover_at no_faults (Some slow_client)
                      (Some "file:///a.jan") 3 4 (Some (Some "stale"))
                      plentiful) = Some None
  /\ hvr_heap (janus_oracle_hover_at no_faults (Some slow_client)
                 (Some "file:///a.jan") 3 4 (Some (Some "stale"))
                 plentiful) = plentiful.
Proof.
  apply (hover_at_failure_leaves_nothing no_faults (Some slow_client)
           (Some "file:///a.jan") 3 4 (Some (Some "stale")) plentiful).
  vm_compute. discriminate.
Defined.

(** X2. After a successful remote call whose markdown is not empty, and with
    the allocation granted, [janus_oracle_hover_at] returns 0 and
    [*markdown_out] is a copy of the markdown. One block is requested for it,
    and none at all when the caller passed no [markdown_out]. *)
Theorem hover_at_copies_markdown
    (c : JanusOracleClient) (st : Stub) (uri_arg : cstr)
    (line_arg character_arg : Z) (markdown_out : out cstr) (h : Heap)
    (resp : HoverAtResponse) :
  stub c = Some st ->
  stub_HoverAt st (rpc_timeout_ms c)
    (position_request uri_arg line_arg character_arg) = Return (OK, resp) ->
  hv_markdown resp <> "" ->
  grants h (mallocs h) = true ->
  janus_oracle_hover_at no_faults (Some c) uri_arg line_arg character_arg
    markdown_out h =
    {| hvr_rc := 0;
       hvr_markdown_out := store markdown_out (Some (hv_markdown resp));
       hvr_heap := match markdown_out with
                   | Some _ => {| grants := grants h;
                                  mallocs := S (mallocs h) |}
                   | None => h
                   end |}.
Proof.
  intros Hst Hcall Hmd Hgrant. unfold janus_oracle_hover_at.
  rewrite (usable_connected c st Hst). simpl.
  unfold position_request in Hcall. rewrite Hcall. simpl.
  destruct markdown_out as [old|]; simpl; [|reflexivity].
  unfold dup_cstr, malloc. destruct (hv_markdown resp) as [|ch rest].
  - now elim Hmd.
  - simpl. rewrite Hgrant. reflexivity.
Qed.

Lemma hover_at_copies_markdown_witness :
  janus_oracle_hover_at no_faults (Some rich_client) (Some "file:///a.jan")
    3 4 (Some None) plentiful =
    {| hvr_rc := 0; hvr_markdown_out := Some (Some "fn main()");
       hvr_heap := {| grants := grants plentiful; mallocs := 1 |} |}.
Proof.
  apply (hover_at_copies_markdown rich_client (loopback rich_server tt 0)
           (Some "file:///a.jan") 3 4 (Some None) plentiful
           {| hv_markdown := "fn main()" |});
    try reflexivity.
  discriminate.
Defined.

(** X3. Whenever [janus_oracle_definition_at] returns a code other than 0,
    [*found_out] is false, [*uri_out] is the null pointer, the line and
    character cells are as the caller left them, and nothing has been
    allocated. *)
Theorem definition_at_failure_leaves_nothing
    (fl : Faults) (client : option JanusOracleClient) (uri_arg : cstr)
    (line_arg character_arg : Z) (found_out : out bool) (uri_out : out cstr)
    (def_line_out def_character_out : out Z) (h : Heap) :
  dfr_rc (janus_oracle_definition_at fl client uri_arg line_arg
            character_arg found_out uri_out def_line_out def_character_out h)
    <> 0 ->
  exists rc : Z,
    janus_oracle_definition_at fl client uri_arg line_arg character_arg
      found_out uri_out def_line_out def_character_out h =
      {| dfr_rc := rc;
         dfr_found_out := store found_out false;
         dfr_uri_out := store uri_out None;
         dfr_def_line_out := def_line_out;
         dfr_def_character_out := def_character_out;
         dfr_heap := h |}.
Proof.
  unfold janus_oracle_definition_at, usable.
  destruct client as [c|]; [|now exists 1].
  destruct (stub c) as [st|]; [|now exists 1].
  simpl. destruct (build_throws fl); simpl; [now exists 3|].
  destruct (stub_DefinitionAt st _ _) as [[s resp]|]; simpl; [|now exists 3].
  destruct (ok s); simpl; [|now exists (failure_code s)].
  destruct (marshal_throws fl); simpl; [now exists 3|].
  destruct (def_found resp); [destruct (store_dup _ _ _)|]; simpl;
    intros Hrc; now elim Hrc.
Qed.

Lemma definition_at_failure_leaves_nothing_witness :
  exists rc : Z,
    janus_oracle_definition_at no_faults (Some bare_client)
      (Some "file:///a.jan") 3 4 (Some true) (Some (Some "stale"))
      (Some 7) (Some 9) plentiful =
      {| dfr_rc := rc; dfr_found_out := Some false; dfr_uri_out := Some None;
         dfr_def_line_out := Some 7; dfr_def_character_out := Some 9;
         dfr_heap := plentiful |}.
Proof.
  apply (definition_at_failure_leaves_nothing no_faults (Some bare_client)
           (Some "file:///a.jan") 3 4 (Some true) (Some (Some "stale"))
           (Some 7) (Some 9) plentiful).
  vm_compute. discriminate.
Defined.

(** X4. After a successful remote call that found a definition,
    [janus_oracle_definition_at] returns 0 with [*found_out] true, the line
    and the character of the response in their cells, and in [*uri_out] the
    result of duplicating the response's uri: a copy when it is not empty and
    the allocation is granted. *)
Theorem definition_at_copies_location
    (c : JanusOracleClient) (st : Stub) (uri_arg : cstr)
    (line_arg character_arg : Z) (found_out : out bool) (uri_out : out cstr)
    (def_line_out def_character_out : out Z) (h : Heap)
    (resp : DefinitionAtResponse) :
  stub c = Some st ->
  stub_DefinitionAt st (rpc_timeout_ms c)
    (position_request uri_arg line_arg character_arg) = Return (OK, resp) ->
  def_found resp = true ->
  def_uri resp <> "" ->
  grants h (mallocs h) = true ->
  janus_oracle_definition_at no_faults (Some c) uri_arg line_arg
    character_arg found_out uri_out def_line_out def_character_out h =
    {| dfr_rc := 0;
       dfr_found_out := store found_out true;
       dfr_uri_out := store uri_out (Some (def_uri resp));
       dfr_def_line_out := store def_line_out (def_line resp);
       dfr_def_character_out := store def_character_out (def_character resp);
       dfr_heap := match uri_out with
                   | Some _ => {| grants := grants h;
                                  mallocs := S (mallocs h) |}
                   | None => h
                   end |}.
Proof.
  intros Hst Hcall Hfound Huri Hgrant. unfold janus_oracle_definition_at.
  rewrite (usable_connected c st Hst). simpl.
  unfold position_request in Hcall. rewrite Hcall. simpl.
  rewrite Hfound, store_store.
  destruct uri_out as [old|]; simpl; [|reflexivity].
  unfold dup_cstr, malloc. destruct (def_uri resp) as [|ch rest].
  - now elim Huri.
  - simpl. rewrite Hgrant. reflexivity.
Qed.

Lemma definition_at_copies_location_witness :
  janus_oracle_definition_at no_faults (Some rich_client)
    (Some "file:///a.jan") 3 4 (Some false) (Some None) (Some 0) (Some 0)
    plentiful =
    {| dfr_rc := 0; dfr_found_out := Some true;
       dfr_uri_out := Some (Some "file:///d.jan");
       dfr_def_line_out := Some 10; dfr_def_character_out := Some 4;
       dfr_heap := {| grants := grants plentiful; mallocs := 1 |} |}.
Proof.
  apply (definition_at_copies_location rich_client
           (loopback rich_server tt 0) (Some "file:///a.jan") 3 4
           (Some false) (Some None) (Some 0) (Some 0) plentiful
           {| def_found := true; def_uri := "file:///d.jan";
              def_line := 10; def_character := 4 |});
    try reflexivity.
  discriminate.
Defined.

(** X5. Whenever [janus_oracle_references_at] returns a code other than 0,
    [*locations_out] is the null pointer and [*count_out] is 0. *)
Theorem references_at_failure_leaves_nothing
    (fl : Faults) (client : option JanusOracleClient) (uri_arg : cstr)
    (line_arg character_arg : Z) (incl : bool)
    (locations_out : out (option (list JanusOracleLocation)))
    (count_out : out Z) (h : Heap) :
  rfr_rc (janus_oracle_references_at fl client uri_arg line_arg
            character_arg incl locations_out count_out h) <> 0 ->
  rfr_locations_out
    (janus_oracle_references_at fl client uri_arg line_arg character_arg
       incl locations_out count_out h) = store locations_out None
  /\ rfr_count_out
       (janus_oracle_references_at fl client uri_arg line_arg character_arg
          incl locations_out count_out h) = store count_out 0.
Proof.
  unfold janus_oracle_references_at, usable.
  destruct client as [c|]; [|now split].
  destruct (stub c) as [st|]; [|now split].
  simpl. destruct (build_throws fl); simpl; [now split|].
  destruct (stub_ReferencesAt st _ _) as [[s resp]|]; simpl; [|now split].
  destruct (ok s); simpl; [|now split].
  destruct (marshal_throws fl); simpl; [now split|].
  destruct (to_uint32 (locations_size resp) =? 0); simpl; [now split|].
  destruct (grants h (mallocs h)); simpl; [|now split].
  destruct (copy_locations _ _). simpl. intros Hrc. now elim Hrc.
Qed.

Lemma references_at_failure_leaves_nothing_witness :
  rfr_locations_out
    (janus_oracle_references_at no_faults (Some sample_client)
       (Some "file:///a.jan") 3 4 true (Some (Some [])) (Some 7) exhausted)
    = Some None
  /\ rfr_count_out
       (janus_oracle_references_at no_faults (Some sample_client)
          (Some "file:///a.jan") 3 4 true (Some (Some [])) (Some 7) exhausted)
     = Some 0.
Proof.
  apply (references_at_failure_leaves_nothing no_faults (Some sample_client)
           (Some "file:///a.jan") 3 4 true (Some (Some [])) (Some 7)
           exhausted).
  vm_compute. discriminate.
Defined.

(** X6. After a successful remote call that carries at least one location,
    and with the array granted, [janus_oracle_references_at] reports in
    [*count_out] the number of locations of the response and has asked the
    heap for one block for the array and one more for each location whose
    uri is not empty, whether or not those were granted. *)
Theorem references_at_allocation_requests
    (c : JanusOracleClient) (st : Stub) (uri_arg : cstr)
    (line_arg character_arg : Z) (incl : bool)
    (locations_out : out (option (list JanusOracleLocation)))
    (count_out : out Z) (h : Heap) (resp : ReferencesAtResponse) :
  stub c = Some st ->
  stub_ReferencesAt st (rpc_timeout_ms c)
    (references_request uri_arg line_arg character_arg incl)
    = Return (OK, resp) ->
  locations resp <> [] ->
  locations_size resp <= INT_MAX ->
  grants h (mallocs h) = true ->
  rfr_count_out
    (janus_oracle_references_at no_faults (Some c) uri_arg line_arg
       character_arg incl locations_out count_out h)
    = store count_out (Z.of_nat (List.length (locations resp)))
  /\ mallocs (rfr_heap
                (janus_oracle_references_at no_faults (Some c) uri_arg
                   line_arg character_arg incl locations_out count_out h))
     = (mallocs h + 1 + List.length (with_uri (locations resp)))%nat.
Proof.
  intros Hst Hcall Hne Hsize Hgrant. unfold janus_oracle_references_at.
  rewrite (usable_connected c st Hst). simpl.
  unfold references_request in Hcall. rewrite Hcall. simpl.
  rewrite (to_uint32_locations_size _ Hsize), (size_nonzero _ Hne).
  rewrite Hgrant. simpl. unfold locations_size. rewrite firstn_whole.
  pose proof (copy_locations_requests (locations resp)
                {| grants := grants h; mallocs := S (mallocs h) |})
    as [Hcount _].
  destruct (copy_locations _ _) as [arr h2]. simpl in *.
  rewrite store_store. split; [reflexivity | lia].
Qed.

Lemma references_at_allocation_requests_witness :
  rfr_count_out
    (janus_oracle_references_at no_faults (Some sample_client) None 3 4 true
       (Some None) (Some 0) one_block) = Some 2
  /\ mallocs (rfr_heap
                (janus_oracle_references_at no_faults (Some sample_client)
                   None 3 4 true (Some None) (Some 0) one_block)) = 2%nat.
Proof.
  apply (references_at_allocation_requests sample_client
           (loopback sample_server tt 0) None 3 4 true (Some None) (Some 0)
           one_block
           {| locations :=
                [ {| wl_uri := ""; wl_line := 1; wl_character := 2 |};
                  {| wl_uri := "file:///b.jan";
                     wl_line := 5; wl_character := 0 |} ] |});
    try reflexivity.
  - discriminate.
  - vm_compute. discriminate.
Defined.

(** X7. On a handle that has its stub, [janus_oracle_doc_update] either
    fails and leaves [*ok_out] as the caller had it, or returns 0 after a
    remote call that answered OK and stores that answer's flag. *)
Theorem doc_update_writes_only_on_success
    (fl : Faults) (c : JanusOracleClient) (st : Stub)
    (uri_arg content_arg : cstr) (ok_out : out bool) :
  stub c = Some st ->
  (dur_rc (janus_oracle_doc_update fl (Some c) uri_arg content_arg ok_out)
     <> 0
   /\ dur_ok_out (janus_oracle_doc_update fl (Some c) uri_arg content_arg
                    ok_out) = ok_out)
  \/ (exists resp : DocUpdateResponse,
        stub_DocUpdate st (rpc_timeout_ms c)
          {| du_uri := or_default uri_arg "";
             du_content := or_default content_arg "" |} = Return (OK, resp)
        /\ janus_oracle_doc_update fl (Some c) uri_arg content_arg ok_out =
             {| dur_rc := 0; dur_ok_out := store ok_out (du_ok resp) |}).
Proof.
  intros Hst. unfold janus_oracle_doc_update.
  rewrite (usable_connected c st Hst). simpl.
  destruct (build_throws fl); simpl; [left; split; [discriminate | reflexivity]|].
  destruct (stub_DocUpdate st _ _) as [[s resp]|]; simpl;
    [|left; split; [discriminate | reflexivity]].
  destruct s; unfold failure_code; simpl;
    try (left; split; [discriminate | reflexivity]).
  destruct (marshal_throws fl); simpl;
    [left; split; [discriminate | reflexivity]|].
  right. now exists resp.
Qed.

Lemma doc_update_writes_only_on_success_witness :
  (dur_rc (janus_oracle_doc_update no_faults (Some sample_client)
             (Some "file:///a.jan") (Some "fn main()") (Some false)) <> 0
   /\ dur_ok_out (janus_oracle_doc_update no_faults (Some sample_client)
                    (Some "file:///a.jan") (Some "fn main()") (Some false))
      = Some false)
  \/ (exists resp : DocUpdateResponse,
        stub_DocUpdate (loopback sample_server tt 0)
          (rpc_timeout_ms sample_client)
          {| du_uri := or_default (Some "file:///a.jan") "";
             du_content := or_default (Some "fn main()") "" |}
          = Return (OK, resp)
        /\ janus_oracle_doc_update no_faults (Some sample_client)
             (Some "file:///a.jan") (Some "fn main()") (Some false) =
             {| dur_rc := 0; dur_ok_out := store (Some false) (du_ok resp) |}).
Proof.
  exact (doc_update_writes_only_on_success no_faults sample_client
           (loopback sample_server tt 0) (Some "file:///a.jan")
           (Some "fn main()") (Some false) eq_refl).
Defined.

(** ** Return codes *)

Section ReturnCodes.

Variables (fl : Faults) (client : option JanusOracleClient) (h : Heap).
Variables (uri_arg content_arg : cstr) (line_arg character_arg : Z).
Variable incl : bool.
Variables (ok_out found_out : out bool) (markdown_out uri_out : out cstr).
Variables (def_line_out def_character_out count_out : out Z).
Variable locations_out : out (option (list JanusOracleLocation)).

(** X8. The codes a caller can see. [janus_oracle_doc_update],
    [janus_oracle_hover_at] and [janus_oracle_definition_at] return one of
    0, 1, 2, 3 and 5, and [janus_oracle_references_at] one of 0, 1, 2, 3, 4
    and 5. Each of the four returns 1 exactly when the handle is null or has
    no stub. *)
Theorem call_return_codes :
  (In (dur_rc (janus_oracle_doc_update fl client uri_arg content_arg ok_out))
      [0; 1; 2; 3; 5]
   /\ (dur_rc (janus_oracle_doc_update fl client uri_arg content_arg ok_out)
         = 1 <-> usable client = None))
  /\ (In (hvr_rc (janus_oracle_hover_at fl client uri_arg line_arg
                    character_arg markdown_out h))
         [0; 1; 2; 3; 5]
      /\ (hvr_rc (janus_oracle_hover_at fl client uri_arg line_arg
                    character_arg markdown_out h) = 1
          <-> usable client = None))
  /\ (In (dfr_rc (janus_oracle_definition_at fl client uri_arg line_arg
                    character_arg found_out uri_out def_line_out
                    def_character_out h))
         [0; 1; 2; 3; 5]
      /\ (dfr_rc (janus_oracle_definition_at fl client uri_arg line_arg
                    character_arg found_out uri_out def_line_out
                    def_character_out h) = 1
          <-> usable client = None))
  /\ (In (rfr_rc (janus_oracle_references_at fl client uri_arg line_arg
                    character_arg incl locations_out count_out h))
         [0; 1; 2; 3; 4; 5]
      /\ (rfr_rc (janus_oracle_references_at fl client uri_arg line_arg
                    character_arg incl locations_out count_out h) = 1
          <-> usable client = None)).
Proof.
  unfold janus_oracle_doc_update, janus_oracle_hover_at,
    janus_oracle_definition_at, janus_oracle_references_at.
  destruct (usable client) as [[c st]|]; simpl.
  2: { repeat split; intros; try reflexivity; auto. }
  destruct (build_throws fl); simpl.
  { repeat split; intros; try discriminate; simpl; auto 8. }
  split; [|split; [|split]].
  - destruct (stub_DocUpdate st _ _) as [[s resp]|]; simpl;
      [destruct s; unfold bind, raise_if, try_catch, failure_code; simpl;
       walk_call|];
      (split; [simpl; auto 8 | split; discriminate]).
  - destruct (stub_HoverAt st _ _) as [[s resp]|]; simpl;
      [destruct s; unfold bind, raise_if, try_catch, failure_code; simpl;
       walk_call|];
      (split; [simpl; auto 8 | split; discriminate]).
  - destruct (stub_DefinitionAt st _ _) as [[s resp]|]; simpl;
      [destruct s; unfold bind, raise_if, try_catch, failure_code; simpl;
       walk_call|];
      (split; [simpl; auto 8 | split; discriminate]).
  - destruct (stub_ReferencesAt st _ _) as [[s resp]|]; simpl;
      [destruct s; unfold bind, raise_if, try_catch, failure_code; simpl;
       walk_call|];
      (split; [simpl; auto 8 | split; discriminate]).
Qed.

(** X9. [janus_oracle_hover_at], [janus_oracle_definition_at] and
    [janus_oracle_references_at] return 0 only after a remote call that
    answered OK: no local path reports success. *)
Theorem success_needs_an_ok_answer (c : JanusOracleClient) (st : Stub) :
  usable client = Some (c, st) ->
  (hvr_rc (janus_oracle_hover_at fl client uri_arg line_arg character_arg
             markdown_out h) = 0 ->
   exists resp : HoverAtResponse,
     stub_HoverAt st (rpc_timeout_ms c)
       (position_request uri_arg line_arg character_arg) = Return (OK, resp))
  /\ (dfr_rc (janus_oracle_definition_at fl client uri_arg line_arg
                character_arg found_out uri_out def_line_out
                def_character_out h) = 0 ->
      exists resp : DefinitionAtResponse,
        stub_DefinitionAt st (rpc_timeout_ms c)
          (position_request uri_arg line_arg character_arg)
          = Return (OK, resp))
  /\ (rfr_rc (janus_oracle_references_at fl client uri_arg line_arg
                character_arg incl locations_out count_out h) = 0 ->
      exists resp : ReferencesAtResponse,
        stub_ReferencesAt st (rpc_timeout_ms c)
          (references_request uri_arg line_arg character_arg incl)
          = Return (OK, resp)).
Proof.
  intros Huse.
  unfold janus_oracle_hover_at, janus_oracle_definition_at,
    janus_oracle_references_at, position_request, references_request.
  rewrite Huse. simpl.
  destruct (build_throws fl); simpl; [repeat split; discriminate|].
  split; [|split].
  - destruct (stub_HoverAt st _ _) as [[s resp]|]; simpl; [|discriminate].
    destruct s; unfold failure_code; simpl; try discriminate.
    intros _. now exists resp.
  - destruct (stub_DefinitionAt st _ _) as [[s resp]|]; simpl;
      [|discriminate].
    destruct s; unfold failure_code; simpl; try discriminate.
    intros _. now exists resp.
  - destruct (stub_ReferencesAt st _ _) as [[s resp]|]; simpl;
      [|discriminate].
    destruct s; unfold failure_code; simpl; try discriminate.
    intros _. now exists resp.
Qed.

End ReturnCodes.

Lemma success_needs_an_ok_answer_witness :
  exists resp : HoverAtResponse,
    stub_HoverAt (loopback rich_server tt 0) (rpc_timeout_ms rich_client)
      (position_request (Some "file:///a.jan") 3 4) = Return (OK, resp).
Proof.
  apply (success_needs_an_ok_answer no_faults (Some rich_client) plentiful
           (Some "file:///a.jan") 3 4 true (Some false) (Some None)
           (Some None) (Some 0) (Some 0) (Some 0) (Some None)
           rich_client (loopback rich_server tt 0) eq_refl).
  reflexivity.
Defined.

(** ** The timeouts of a handle *)

(** X10. The connect timeout stored in a handle is read by no call
    operation: after [janus_oracle_client_set_timeouts] has changed it
    alone, each of the four call operations gives the result it gave
    before. *)
Theorem connect_timeout_is_not_read_by_calls
    (fl : Faults) (c : JanusOracleClient) (connect_ms : Z) (h : Heap)
    (uri_arg content_arg : cstr) (line_arg character_arg : Z) (incl : bool)
    (ok_out found_out : out bool) (markdown_out uri_out : out cstr)
    (def_line_out def_character_out count_out : out Z)
    (locations_out : out (option (list JanusOracleLocation))) :
  janus_oracle_doc_update fl
    (snd (janus_oracle_client_set_timeouts (Some c) connect_ms 0))
    uri_arg content_arg ok_out =
    janus_oracle_doc_update fl (Some c) uri_arg content_arg ok_out
  /\ janus_oracle_hover_at fl
       (snd (janus_oracle_client_set_timeouts (Some c) connect_ms 0))
       uri_arg line_arg character_arg markdown_out h =
       janus_oracle_hover_at fl (Some c) uri_arg line_arg character_arg
         markdown_out h
  /\ janus_oracle_definition_at fl
       (snd (janus_oracle_client_set_timeouts (Some c) connect_ms 0))
       uri_arg line_arg character_arg found_out uri_out def_line_out
       def_character_out h =
       janus_oracle_definition_at fl (Some c) uri_arg line_arg character_arg
         found_out uri_out def_line_out def_character_out h
  /\ janus_oracle_references_at fl
       (snd (janus_oracle_client_set_timeouts (Some c) connect_ms 0))
       uri_arg line_arg character_arg incl locations_out count_out h =
       janus_oracle_references_at fl (Some c) uri_arg line_arg character_arg
         incl locations_out count_out h.
Proof.
  destruct c as [chan stb ct rt].
  unfold janus_oracle_client_set_timeouts. simpl.
  destruct (connect_ms =? 0); simpl; [repeat split; reflexivity|].
  unfold janus_oracle_doc_update, janus_oracle_hover_at,
    janus_oracle_definition_at, janus_oracle_references_at, usable.
  simpl. destruct stb as [st|]; simpl; repeat split; reflexivity.
Qed.

(** X11. A handle returned by [janus_oracle_client_connect] is complete: it
    has its stub, its channel targets [host:port] (with ["127.0.0.1"] for a
    null host), and its timeouts are 1500 and 1000 milliseconds. It is
    returned only if nothing was raised, the block for the handle was granted
    and the channel became ready within 1500 milliseconds. *)
Theorem connect_returns_a_complete_handle
    (net : Transport) (fl : Faults) (host_arg : cstr) (port_arg : Z)
    (h : Heap) (c : JanusOracleClient) :
  fst (janus_oracle_client_connect net fl host_arg port_arg h) = Some c ->
  c = {| channel := CreateChannel (or_default host_arg "127.0.0.1" ++ ":"
                                     ++ to_string port_arg);
         stub := Some (NewStub net
                         (CreateChannel (or_default host_arg "127.0.0.1"
                                           ++ ":" ++ to_string port_arg)));
         connect_timeout_ms := 1500;
         rpc_timeout_ms := 1000 |}
  /\ build_throws fl = false
  /\ grants h (mallocs h) = true
  /\ WaitForConnected net
       (CreateChannel (or_default host_arg "127.0.0.1" ++ ":"
                         ++ to_string port_arg)) 1500 = true.
Proof.
  unfold janus_oracle_client_connect, malloc.
  destruct (build_throws fl); [discriminate|].
  cbn [raise_if bind try_catch].
  destruct (grants h (mallocs h)); [|discriminate].
  cbn [negb connect_timeout_ms].
  destruct (WaitForConnected net _ 1500) eqn:Hready; cbn [negb try_catch fst];
    [|discriminate].
  intros Hc. inversion Hc. repeat split; reflexivity.
Qed.

Lemma connect_returns_a_complete_handle_witness :
  sample_client =
    {| channel := CreateChannel (or_default None "127.0.0.1" ++ ":"
                                   ++ to_string 50051);
       stub := Some (NewStub
                       (peer_ready_after 20 (loopback sample_server tt 0))
                       (CreateChannel (or_default None "127.0.0.1" ++ ":"
                                         ++ to_string 50051)));
       connect_timeout_ms := 1500;
       rpc_timeout_ms := 1000 |}
  /\ build_throws no_faults = false
  /\ grants plentiful (mallocs plentiful) = true
  /\ WaitForConnected (peer_ready_after 20 (loopback sample_server tt 0))
       (CreateChannel (or_default None "127.0.0.1" ++ ":"
                         ++ to_string 50051)) 1500 = true.
Proof.
  apply (connect_returns_a_complete_handle
           (peer_ready_after 20 (loopback sample_server tt 0)) no_faults
           None 50051 plentiful sample_client).
  reflexivity.
Defined.

(** ** The life of a server handle *)

Section ServerLife.

Variable W : Type.

(** X12. A server handle returned by [janus_oracle_server_create] carries
    the host (["127.0.0.1"] for a null one) and the port it was given, has no
    listening endpoint, and has no handler: its service answers
    [UNIMPLEMENTED] to each of the four operations, runs nothing and leaves
    the response as it was. *)
Theorem created_server_serves_nothing
    (fl : Faults) (host_arg : cstr) (port_arg : Z) (h : Heap)
    (s : JanusOracleServer W) :
  fst (janus_oracle_server_create fl host_arg port_arg h) = Some s ->
  host s = or_default host_arg "127.0.0.1"
  /\ port s = port_arg
  /\ server s = None
  /\ (forall req resp w,
        ServiceImpl_DocUpdate s req resp w =
          {| status := UNIMPLEMENTED; response := resp;
             world := w; invoked := [] |})
  /\ (forall req resp w,
        ServiceImpl_HoverAt s req resp w =
          {| status := UNIMPLEMENTED; response := resp;
             world := w; invoked := [] |})
  /\ (forall req resp w,
        ServiceImpl_DefinitionAt s req resp w =
          {| status := UNIMPLEMENTED; response := resp;
             world := w; invoked := [] |})
  /\ (forall req resp w,
        ServiceImpl_ReferencesAt s req resp w =
          {| status := UNIMPLEMENTED; response := resp;
             world := w; invoked := [] |}).
Proof.
  unfold janus_oracle_server_create, malloc.
  destruct (grants h (mallocs h)); simpl; [|discriminate].
  destruct (build_throws fl); simpl; [discriminate|].
  intros Hs. inversion Hs. subst s. repeat split.
Qed.

(** X13. [janus_oracle_server_set_handlers] fails with 1 on the null handle
    only. On any other handle it returns 0, leaves the host, the port and the
    listening endpoint alone, and replaces the four handlers and the user
    pointer together: what an earlier call had set is gone, also where the
    later call passes a null handler. *)
Theorem set_handlers_replaces_all
    (s : JanusOracleServer W)
    (f1 g1 : option (JanusDocUpdateFn W)) (f2 g2 : option (JanusHoverAtFn W))
    (f3 g3 : option (JanusDefinitionAtFn W))
    (f4 g4 : option (JanusReferencesAtFn W)) (u v : Z) :
  janus_oracle_server_set_handlers (W := W) None g1 g2 g3 g4 v = (1, None)
  /\ janus_oracle_server_set_handlers (Some s) g1 g2 g3 g4 v =
       (0, Some {| host := host s; port := port s; server := server s;
                   on_doc_update := g1; on_hover_at := g2;
                   on_definition_at := g3; on_references_at := g4;
                   user := v |})
  /\ janus_oracle_server_set_handlers
       (snd (janus_oracle_server_set_handlers (Some s) f1 f2 f3 f4 u))
       g1 g2 g3 g4 v =
     janus_oracle_server_set_handlers (Some s) g1 g2 g3 g4 v.
Proof.
  repeat split.
Qed.

Variable BuildAndStart : string -> option GrpcServer.

(** X14. Start, then stop. On a handle without endpoint, when nothing is
    raised and the transport can listen on [host:port],
    [janus_oracle_server_start] returns 0, and [janus_oracle_server_stop]
    after it returns 0 and gives back the handle as it was before the start;
    the transport has been asked to open one endpoint and to shut that same
    endpoint down. *)
Theorem start_then_stop
    (fl : Faults) (s : JanusOracleServer W) (log : list NetEvent)
    (g : GrpcServer) :
  server s = None ->
  build_throws fl = false ->
  BuildAndStart (host s ++ ":" ++ to_string (port s)) = Some g ->
  janus_oracle_server_start BuildAndStart fl false (Some s) log =
    (0, Some (set_server s (Some g)), (log ++ [EvListen (address g)])%list)
  /\ janus_oracle_server_stop (Some (set_server s (Some g)))
       (log ++ [EvListen (address g)])%list =
     (0, Some s,
      (log ++ [EvListen (address g); EvShutdown (address g)])%list).
Proof.
  intros Hnone Hbuild Hbind. unfold janus_oracle_server_start.
  rewrite Hbuild. cbn [raise_if bind try_catch]. rewrite Hbind.
  cbn [try_catch]. split; [reflexivity|].
  unfold janus_oracle_server_stop, set_server. simpl.
  rewrite <- app_assoc. simpl.
  destruct s as [hst prt srv f1 f2 f3 f4 usr]. simpl in Hnone. subst srv.
  reflexivity.
Qed.


(** X16. [janus_oracle_server_destroy] asks the transport to shut the
    endpoint down when the handle has one and asks nothing otherwise: nothing
    for the null handle, and nothing for a handle that has been stopped. *)
Theorem destroy_shuts_down_once
    (s : JanusOracleServer W) (log : list NetEvent) :
  janus_oracle_server_destroy (W := W) None log = log
  /\ janus_oracle_server_destroy (Some s) log =
       (log ++ match server s with
               | Some g => [EvShutdown (address g)]
               | None => []
               end)%list
  /\ janus_oracle_server_destroy
       (snd (fst (janus_oracle_server_stop (Some s) log)))
       (snd (janus_oracle_server_stop (Some s) log)) =
     snd (janus_oracle_server_stop (Some s) log).
Proof.
  unfold janus_oracle_server_destroy, janus_oracle_server_stop.
  destruct (server s) as [g|] eqn:Hsrv; simpl; rewrite ?Hsrv; simpl;
    rewrite ?app_nil_r; repeat split; reflexivity.
Qed.

End ServerLife.

Lemma created_server_serves_nothing_witness :
  server bare_server = None
  /\ (forall req resp w,
        ServiceImpl_HoverAt bare_server req resp w =
          {| status := UNIMPLEMENTED; response := resp;
             world := w; invoked := [] |}).
Proof.
  destruct (created_server_serves_nothing unit no_faults None 50051 plentiful
              bare_server eq_refl) as [_ [_ [Hendpoint [_ [Hhover _]]]]].
  split; [exact Hendpoint | exact Hhover].
Defined.

Lemma start_then_stop_witness :
  janus_oracle_server_start (fun addr => Some {| address := addr |})
    no_faults false (Some bare_server) [] =
    (0, Some (set_server bare_server (Some {| address := "127.0.0.1:50051" |})),
     [EvListen "127.0.0.1:50051"])
  /\ janus_oracle_server_stop
       (Some (set_server bare_server
                (Some {| address := "127.0.0.1:50051" |})))
       [EvListen "127.0.0.1:50051"] =
     (0, Some bare_server,
      [EvListen "127.0.0.1:50051"; EvShutdown "127.0.0.1:50051"]).
Proof.
  exact (start_then_stop unit (fun addr => Some {| address := addr |})
           no_faults bare_server [] {| address := "127.0.0.1:50051" |}
           eq_refl eq_refl eq_refl).
Defined.


(** ** A call from end to end *)

Section EndToEnd.

Variable W : Type.
Variables (owner : JanusOracleServer W) (w : W).
Variables (c : JanusOracleClient) (st : Stub).
Variables (uri_arg content_arg : cstr) (line_arg character_arg : Z).
Variable h : Heap.

Hypothesis connected_handle : stub c = Some st.

(** X17. A document update answered by a service. When the transport
    delivers what the service answers, [janus_oracle_doc_update] returns 2
    both when the service has no handler and when the handler returns a code
    other than 0, leaving [*ok_out] alone; when the handler returns 0 the
    operation returns 0 and [*ok_out] is the flag the handler wrote. The
    handler is given the client's uri and content, the empty string standing
    for a null pointer. *)
Theorem doc_update_end_to_end (ok_out : out bool) :
  delivers (stub_DocUpdate st) (ServiceImpl_DocUpdate owner)
    (rpc_timeout_ms c)
    {| du_uri := or_default uri_arg "";
       du_content := or_default content_arg "" |}
    fresh_DocUpdateResponse w ->
  (on_doc_update owner = None ->
   janus_oracle_doc_update no_faults (Some c) uri_arg content_arg ok_out =
     {| dur_rc := 2; dur_ok_out := ok_out |})
  /\ (forall handler rc ok_cell w1,
        on_doc_update owner = Some handler ->
        handler (c_str (or_default uri_arg ""))
                (c_str (or_default content_arg "")) false (user owner) w
          = (rc, ok_cell, w1) ->
        janus_oracle_doc_update no_faults (Some c) uri_arg content_arg ok_out =
          if rc =? 0
          then {| dur_rc := 0; dur_ok_out := store ok_out ok_cell |}
          else {| dur_rc := 2; dur_ok_out := ok_out |}).
Proof.
  unfold delivers, janus_oracle_doc_update, ServiceImpl_DocUpdate.
  rewrite (usable_connected c st connected_handle). simpl.
  intros Hnet. split.
  - intros Hoff. rewrite Hoff in Hnet. rewrite Hnet. reflexivity.
  - intros handler rc ok_cell w1 Hon Hrun. rewrite Hon in Hnet.
    simpl in Hnet. rewrite Hrun in Hnet. rewrite Hnet.
    destruct (rc =? 0); reflexivity.
Qed.

(** X18. A hover request answered by a service. When the transport delivers
    what the service answers, [janus_oracle_hover_at] returns 2 with a null
    [*markdown_out] both when the service has no handler and when the handler
    returns a code other than 0. When the handler returns 0 the operation
    returns 0 and [*markdown_out] is the duplicate of the text the handler
    gave, a null pointer from the handler counting as the empty text. *)
Theorem hover_at_end_to_end (markdown_out : out cstr) :
  delivers (stub_HoverAt st) (ServiceImpl_HoverAt owner) (rpc_timeout_ms c)
    (position_request uri_arg line_arg character_arg)
    fresh_HoverAtResponse w ->
  (on_hover_at owner = None ->
   janus_oracle_hover_at no_faults (Some c) uri_arg line_arg character_arg
     markdown_out h =
     {| hvr_rc := 2; hvr_markdown_out := store markdown_out None;
        hvr_heap := h |})
  /\ (forall handler rc md w1,
        on_hover_at owner = Some handler ->
        handler (c_str (or_default uri_arg "")) line_arg character_arg None
                (user owner) w = (rc, md, w1) ->
        janus_oracle_hover_at no_faults (Some c) uri_arg line_arg
          character_arg markdown_out h =
          if rc =? 0
          then {| hvr_rc := 0;
                  hvr_markdown_out :=
                    fst (store_dup (store markdown_out None)
                           (or_default md "") h);
                  hvr_heap :=
                    snd (store_dup (store markdown_out None)
                           (or_default md "") h) |}
          else {| hvr_rc := 2; hvr_markdown_out := store markdown_out None;
                  hvr_heap := h |}).
Proof.
  unfold delivers, janus_oracle_hover_at, ServiceImpl_HoverAt,
    position_request.
  rewrite (usable_connected c st connected_handle). simpl.
  intros Hnet. split.
  - intros Hoff. rewrite Hoff in Hnet. rewrite Hnet. reflexivity.
  - intros handler rc md w1 Hon Hrun. rewrite Hon in Hnet.
    simpl in Hnet. rewrite Hrun in Hnet. rewrite Hnet.
    destruct (rc =? 0); simpl; [|reflexivity].
    destruct md as [text|]; simpl;
      destruct (store_dup _ _ _); reflexivity.
Qed.

(** X19. A definition request answered by a service. When the transport
    delivers what the service answers, [janus_oracle_definition_at] returns
    2 when the service has no handler or the handler returns a code other
    than 0. When the handler returns 0 without finding anything, the
    operation returns 0 with [*found_out] false and a null [*uri_out], and
    the line and character the handler may have written do not reach the
    caller's cells. When the handler returns 0 and has found a definition,
    the caller gets true, the handler's line and character, and the duplicate
    of the handler's uri. *)
Theorem definition_at_end_to_end
    (found_out : out bool) (uri_out : out cstr)
    (def_line_out def_character_out : out Z) :
  delivers (stub_DefinitionAt st) (ServiceImpl_DefinitionAt owner)
    (rpc_timeout_ms c)
    (position_request uri_arg line_arg character_arg)
    fresh_DefinitionAtResponse w ->
  (on_definition_at owner = None ->
   dfr_rc (janus_oracle_definition_at no_faults (Some c) uri_arg line_arg
             character_arg found_out uri_out def_line_out def_character_out
             h) = 2)
  /\ (forall handler rc cells w1,
        on_definition_at owner = Some handler ->
        handler (c_str (or_default uri_arg "")) line_arg character_arg
                {| c_found := false; c_def_uri := None;
                   c_line := 0; c_ch := 0 |}
                (user owner) w = (rc, cells, w1) ->
        (rc <> 0 ->
         dfr_rc (janus_oracle_definition_at no_faults (Some c) uri_arg
                   line_arg character_arg found_out uri_out def_line_out
                   def_character_out h) = 2)
        /\ (rc = 0 -> c_found cells = false ->
            janus_oracle_definition_at no_faults (Some c) uri_arg line_arg
              character_arg found_out uri_out def_line_out
              def_character_out h =
              {| dfr_rc := 0; dfr_found_out := store found_out false;
                 dfr_uri_out := store uri_out None;
                 dfr_def_line_out := def_line_out;
                 dfr_def_character_out := def_character_out;
                 dfr_heap := h |})
        /\ (rc = 0 -> c_found cells = true ->
            janus_oracle_definition_at no_faults (Some c) uri_arg line_arg
              character_arg found_out uri_out def_line_out
              def_character_out h =
              {| dfr_rc := 0; dfr_found_out := store found_out true;
                 dfr_uri_out :=
                   fst (store_dup (store uri_out None)
                          (or_default (c_def_uri cells) "") h);
                 dfr_def_line_out := store def_line_out (c_line cells);
                 dfr_def_character_out :=
                   store def_character_out (c_ch cells);
                 dfr_heap :=
                   snd (store_dup (store uri_out None)
                          (or_default (c_def_uri cells) "") h) |})).
Proof.
  unfold delivers, janus_oracle_definition_at, ServiceImpl_DefinitionAt,
    position_request.
  rewrite (usable_connected c st connected_handle). simpl.
  intros Hnet. split.
  - intros Hoff. rewrite Hoff in Hnet. rewrite Hnet. reflexivity.
  - intros handler rc cells w1 Hon Hrun. rewrite Hon in Hnet.
    simpl in Hnet. rewrite Hrun in Hnet. rewrite Hnet. clear Hnet.
    split; [|split].
    + intros Hrc. apply Z.eqb_neq in Hrc. rewrite Hrc. reflexivity.
    + intros -> Hfound. simpl. rewrite Hfound. simpl.
      destruct found_out; reflexivity.
    + intros -> Hfound. simpl. rewrite Hfound. simpl.
      rewrite store_store.
      destruct (c_def_uri cells) as [text|]; simpl;
        destruct (store_dup _ _ _); reflexivity.
Qed.

End EndToEnd.

Lemma doc_update_end_to_end_witness :
  janus_oracle_doc_update no_faults (Some sample_client)
    (Some "file:///a.jan") None (Some false) =
    {| dur_rc := 0; dur_ok_out := Some true |}.
Proof.
  destruct (doc_update_end_to_end unit sample_server tt sample_client
              (loopback sample_server tt 0) (Some "file:///a.jan") None
              eq_refl (Some false) eq_refl) as [_ Hserved].
  exact (Hserved doc_update_accepts 0 true tt eq_refl eq_refl).
Defined.

Lemma hover_at_end_to_end_witness :
  janus_oracle_hover_at no_faults (Some bare_client) (Some "file:///a.jan")
    3 4 (Some (Some "stale")) plentiful =
    {| hvr_rc := 2; hvr_markdown_out := Some None; hvr_heap := plentiful |}
  /\ janus_oracle_hover_at no_faults (Some rich_client)
       (Some "file:///a.jan") 3 4 (Some (Some "stale")) plentiful =
       {| hvr_rc := 0; hvr_markdown_out := Some (Some "fn main()");
          hvr_heap := {| grants := grants plentiful; mallocs := 1 |} |}.
Proof.
  destruct (hover_at_end_to_end unit bare_server tt bare_client
              (loopback bare_server tt 0) (Some "file:///a.jan") 3 4
              plentiful eq_refl (Some (Some "stale")) eq_refl)
    as [Hmissing _].
  destruct (hover_at_end_to_end unit rich_server tt rich_client
              (loopback rich_server tt 0) (Some "file:///a.jan") 3 4
              plentiful eq_refl (Some (Some "stale")) eq_refl)
    as [_ Hserved].
  split.
  - exact (Hmissing eq_refl).
  - exact (Hserved hover_text 0 (Some "fn main()") tt eq_refl eq_refl).
Defined.

Lemma definition_at_end_to_end_witness :
  janus_oracle_definition_at no_faults (Some rich_client)
    (Some "file:///a.jan") 3 4 (Some false) (Some None) (Some 0) (Some 0)
    plentiful =
    {| dfr_rc := 0; dfr_found_out := Some true;
       dfr_uri_out := Some (Some "file:///d.jan");
       dfr_def_line_out := Some 10; dfr_def_character_out := Some 4;
       dfr_heap := {| grants := grants plentiful; mallocs := 1 |} |}.
Proof.
  destruct (definition_at_end_to_end unit rich_server tt rich_client
              (loopback rich_server tt 0) (Some "file:///a.jan") 3 4
              plentiful eq_refl (Some false) (Some None) (Some 0) (Some 0)
              eq_refl) as [_ Hserved].
  destruct (Hserved definition_found 0
              {| c_found := true; c_def_uri := Some "file:///d.jan";
                 c_line := 10; c_ch := 4 |} tt eq_refl eq_refl)
    as [_ [_ Hfound]].
  exact (Hfound eq_refl eq_refl).
Defined.

(** ** The two builds side by side *)

(** X20. The build without the gRPC stubs against the build with them, on a
    null handle. [janus_oracle_hover_at] and [janus_oracle_references_at]
    give the same result in both. [janus_oracle_doc_update] and
    [janus_oracle_definition_at] return 1 in both, but only the build
    without stubs writes false to [*ok_out] and zero to [*def_line_out] and
    [*def_character_out]; the build with stubs leaves those cells alone.
    [janus_oracle_server_stop] on the null handle returns 0 without the
    stubs and 1 with them. *)
Theorem builds_side_by_side
    (fl : Faults) (fc : option Fallback.JanusOracleClient)
    (fs : option Fallback.JanusOracleServer) (h : Heap)
    (uri_arg content_arg : cstr) (line_arg character_arg : Z) (incl : bool)
    (ok_out found_out : out bool) (markdown_out uri_out : out cstr)
    (def_line_out def_character_out count_out : out Z)
    (locations_out : out (option (list JanusOracleLocation)))
    (log : list NetEvent) :
  Fallback.janus_oracle_hover_at fc uri_arg line_arg character_arg
    markdown_out h =
    janus_oracle_hover_at fl None uri_arg line_arg character_arg
      markdown_out h
  /\ Fallback.janus_oracle_references_at fc uri_arg line_arg character_arg
       incl locations_out count_out h =
       janus_oracle_references_at fl None uri_arg line_arg character_arg
         incl locations_out count_out h
  /\ Fallback.janus_oracle_doc_update fc uri_arg content_arg ok_out =
       {| dur_rc := 1; dur_ok_out := store ok_out false |}
  /\ janus_oracle_doc_update fl None uri_arg content_arg ok_out =
       {| dur_rc := 1; dur_ok_out := ok_out |}
  /\ Fallback.janus_oracle_definition_at fc uri_arg line_arg character_arg
       found_out uri_out def_line_out def_character_out h =
       {| dfr_rc := 1; dfr_found_out := store found_out false;
          dfr_uri_out := store uri_out None;
          dfr_def_line_out := store def_line_out 0;
          dfr_def_character_out := store def_character_out 0;
          dfr_heap := h |}
  /\ janus_oracle_definition_at fl None uri_arg line_arg character_arg
       found_out uri_out def_line_out def_character_out h =
       {| dfr_rc := 1; dfr_found_out := store found_out false;
          dfr_uri_out := store uri_out None;
          dfr_def_line_out := def_line_out;
          dfr_def_character_out := def_character_out;
          dfr_heap := h |}
  /\ Fallback.janus_oracle_server_stop fs = 0
  /\ fst (fst (janus_oracle_server_stop (W := unit) None log)) = 1.
Proof.
  repeat split.
Qed.

(** ** The runtime's strings *)

(** X21. [janus_string_len] gives 0 for the null pointer, and for a string
    whose length fits an [int] the number of bytes before its first NUL,
    which is not negative; the empty string and the null pointer give the
    same answer. *)
Theorem string_len_counts_bytes (s : string) :
  strlen s <= INT_MAX ->
  janus_string_len None = 0
  /\ janus_string_len (Some "") = 0
  /\ janus_string_len (Some s) = Z.of_nat (String.length (std_string s))
  /\ 0 <= janus_string_len (Some s).
Proof.
  intros Hfit. unfold janus_string_len.
  rewrite (to_int_small (strlen s)) by (unfold strlen in *; lia).
  unfold strlen. repeat split; try reflexivity. lia.
Qed.

Lemma string_len_counts_bytes_witness :
  janus_string_len None = 0
  /\ janus_string_len (Some "") = 0
  /\ janus_string_len (Some "janus") = 5
  /\ 0 <= janus_string_len (Some "janus").
Proof.
  apply (string_len_counts_bytes "janus"). vm_compute. discriminate.
Defined.

(** X22. [janus_string_concat] takes a null pointer for the empty string.
    When its block is granted, the result holds the bytes of the first
    string followed by those of the second, and, for lengths that fit an
    [int], its length is the sum of the two lengths. When the block is
    refused the function has no result. *)
Theorem string_concat_appends (a b : string) (h : Heap) :
  strlen a + strlen b <= INT_MAX ->
  (forall s2, janus_string_concat None s2 h
              = janus_string_concat (Some "") s2 h)
  /\ (forall s1, janus_string_concat s1 None h
                 = janus_string_concat s1 (Some "") h)
  /\ (grants h (mallocs h) = false ->
      fst (janus_string_concat (Some a) (Some b) h) = None)
  /\ (grants h (mallocs h) = true ->
      fst (janus_string_concat (Some a) (Some b) h)
        = Some (std_string a ++ std_string b)%string
      /\ janus_string_len (Some (std_string a ++ std_string b)%string)
         = janus_string_len (Some a) + janus_string_len (Some b)).
Proof.
  intros Hfit. unfold janus_string_concat, malloc.
  split; [reflexivity|]. split; [reflexivity|]. split.
  - intros Hrefused. now rewrite Hrefused.
  - intros Hgranted. rewrite Hgranted. split; [reflexivity|].
    unfold janus_string_len, strlen in *.
    rewrite std_string_append, length_append, Nat2Z.inj_add.
    pose proof (Nat2Z.is_nonneg (String.length (std_string a))).
    pose proof (Nat2Z.is_nonneg (String.length (std_string b))).
    rewrite !to_int_small by lia. reflexivity.
Qed.

Lemma string_concat_appends_witness :
  fst (janus_string_concat (Some "ja") (Some "nus") plentiful) = Some "janus"
  /\ janus_string_len (Some "janus")
     = janus_string_len (Some "ja") + janus_string_len (Some "nus").
Proof.
  destruct (string_concat_appends "ja" "nus" plentiful
              ltac:(vm_compute; discriminate)) as [_ [_ [_ Hgranted]]].
  exact (Hgranted eq_refl).
Defined.

(** X23. The sample's [janus_starts_with] returns 1 exactly when the text
    begins with the prefix, both read up to their first NUL, and 0
    otherwise; the empty prefix starts every text. *)
Theorem starts_with_is_prefix (text prefix : string) :
  (janus_starts_with text prefix = 1 <->
   exists rest : string,
     std_string text = (std_string prefix ++ rest)%string)
  /\ (janus_starts_with text prefix = 0
      \/ janus_starts_with text prefix = 1)
  /\ janus_starts_with text "" = 1.
Proof.
  unfold janus_starts_with, strncmp, strlen. rewrite Nat2Z.id.
  split; [|split].
  - destruct (Z.of_nat (String.length (std_string prefix))
              >? Z.of_nat (String.length (std_string text))) eqn:Hlonger.
    + split; [discriminate|]. intros [rest Heq].
      apply Z.gtb_lt in Hlonger. rewrite Heq, length_append in Hlonger. lia.
    + assert (Hlen : (String.length (std_string prefix)
                      <= String.length (std_string text))%nat).
      { rewrite Z.gtb_ltb in Hlonger. apply Z.ltb_ge in Hlonger. lia. }
      rewrite <- (strncmp_bytes_prefix _ _ Hlen).
      destruct (strncmp_bytes _ _ _ =? 0) eqn:Hcmp.
      * apply Z.eqb_eq in Hcmp. now split.
      * apply Z.eqb_neq in Hcmp. split; [discriminate | contradiction].
  - destruct (_ >? _); [now left|].
    destruct (_ =? 0); [now right | now left].
  - simpl. destruct (0 >? _) eqn:Hlonger; [|reflexivity].
    apply Z.gtb_lt in Hlonger. lia.
Qed.
